(** * brother_ql_web: the web front-end of a Brother QL label printer

    A shallow embedding of [brother_ql_web.py].  The route handlers are
    written in a small state-and-exception monad over a [World] that
    holds the module's globals, the image directory and a trace of the
    calls made to the collaborators (Pillow, the brother_ql raster
    library, the printer backend, the logger).  The collaborators
    themselves are not part of the repository: their behaviour is the
    record [Extern], over which every statement is quantified. *)

From Stdlib Require Import ZArith NArith Ascii String List Lia.
From Stdlib.Strings Require Import Byte.
From stdpp Require Import base strings gmap list.

Set Default Proof Using "Type".

(* ===================================================================== *)
(** ** Python values used by the handlers                                *)
(* ===================================================================== *)

Module Py.

(** [bytes] objects. *)
Abbreviation bytes := (list byte).

(** The exceptions that can travel through the handlers.  [KeyError] is
    the only [LookupError] among them; [OSError] is raised by file
    operations, with its text; [HTTPResponse] is what bottle's
    [redirect] raises; [LibraryError] stands for whatever a collaborator
    raises (an I/O error of the transport, an unknown printer model, an
    undecodable image ...), with its [str()] text. *)
Inductive Exc : Type :=
| KeyError (key : string)
| AttributeError (msg : string)
| UnboundLocalError (var : string)
| OSError (text : string)
| HTTPResponse (location : string)
| LibraryError (text : string).

Inductive Outcome (A : Type) : Type :=
| Return (a : A)
| Raise (e : Exc).
Arguments Return {A} a.
Arguments Raise {A} e.

(** The class name, as [type(e).__name__] gives it. *)
Definition class_name (e : Exc) : string :=
  match e with
  | KeyError _ => "KeyError"
  | AttributeError _ => "AttributeError"
  | UnboundLocalError _ => "UnboundLocalError"
  | OSError _ => "OSError"
  | HTTPResponse _ => "HTTPResponse"
  | LibraryError _ => "Exception"
  end.

(** [isinstance(e, LookupError)]. *)
Definition is_LookupError (e : Exc) : bool :=
  match e with
  | KeyError _ => true
  | _ => false
  end.

(** [isinstance(e, Exception)]: every exception modelled here derives
    from [Exception]. *)
Definition is_Exception (e : Exc) : bool := true.

(** The attribute access [e.msg].  None of the exception classes above
    defines [msg] (a [KeyError] carries [args] only), so the access
    itself raises [AttributeError]. *)
Definition getattr_msg (e : Exc) : Outcome string :=
  Raise (AttributeError
           ("'" +:+ class_name e +:+ "' object has no attribute 'msg'")).

(** The quote character, which a string literal cannot hold. *)
Definition dquote : ascii := ascii_of_nat 34.
Definition bsl : ascii := ascii_of_nat 92.

Definition hex_digit (n : N) : ascii :=
  default "0"%char (String.get (N.to_nat n) "0123456789abcdef").

Fixpoint has_char (c : ascii) (s : string) : bool :=
  match s with
  | EmptyString => false
  | String a s' => Ascii.eqb a c || has_char c s'
  end.

(** One character of a [repr]: the quote in use and the backslash are
    escaped, tab, newline and carriage return have their letter, other
    control characters and everything from 0x7f up are written in hex. *)
Definition repr_char (quote c : ascii) : string :=
  let n := N_of_ascii c in
  if Ascii.eqb c quote || Ascii.eqb c bsl then String bsl (String c "")
  else if (n =? 9)%N then String bsl "t"
  else if (n =? 10)%N then String bsl "n"
  else if (n =? 13)%N then String bsl "r"
  else if (n <? 32)%N || (127 <=? n)%N then
    String bsl (String "x" (String (hex_digit (n / 16)) (String (hex_digit (n mod 16)) "")))
  else String c "".

Fixpoint repr_body (quote : ascii) (s : string) : string :=
  match s with
  | EmptyString => ""
  | String c s' => repr_char quote c +:+ repr_body quote s'
  end.

(** Single quotes, unless the text holds a single quote and no double
    quote. *)
Definition repr_quote (s : string) : ascii :=
  if has_char "'" s && negb (has_char dquote s) then dquote else "'"%char.

Definition string_of_bytes (b : bytes) : string :=
  string_of_list_ascii (List.map ascii_of_byte b).

(** [str(b)] of a [bytes] object [b], which is its [repr]: [b'...']. *)
Definition str_bytes (b : bytes) : string :=
  let s := string_of_bytes b in
  let q := repr_quote s in
  String "b" (String q (repr_body q s +:+ String q "")).

(** [str(e)] of an exception.  For a [KeyError] it is the [repr] of the
    key (exact for keys of ASCII characters). *)
Definition str_exc (e : Exc) : string :=
  match e with
  | KeyError k =>
      let q := repr_quote k in String q (repr_body q k +:+ String q "")
  | AttributeError m => m
  | UnboundLocalError v =>
      "cannot access local variable '" +:+ v
        +:+ "' where it is not associated with a value"
  | OSError t => t
  | HTTPResponse _ => ""
  | LibraryError t => t
  end.

(** The values stored in the dictionary that [print_image] returns. *)
Inductive Val : Type :=
| VBool (b : bool)
| VStr (s : string).

End Py.
Export Py.

(* ===================================================================== *)
(** ** [os.path]                                                         *)
(* ===================================================================== *)

Module OsPath.

(** [s.rfind(c)]: the index of the last [c] in [s], or -1. *)
Fixpoint rfind (c : ascii) (s : string) : Z :=
  match s with
  | EmptyString => (-1)%Z
  | String a s' =>
      let r := rfind c s' in
      if (0 <=? r)%Z then (r + 1)%Z
      else if Ascii.eqb a c then 0%Z else (-1)%Z
  end.

(** The loop of [genericpath._splitext] that skips the leading dots of
    the last path component: [true] when a character other than the dot
    stands between [filenameIndex] and [dotIndex]. *)
Fixpoint has_stem (fuel : nat) (p : string) (filenameIndex dotIndex : nat) : bool :=
  match fuel with
  | O => false
  | S fuel' =>
      if (filenameIndex <? dotIndex)%nat then
        match String.get filenameIndex p with
        | Some c =>
            if Ascii.eqb c "." then has_stem fuel' p (S filenameIndex) dotIndex
            else true
        | None => true
        end
      else false
  end.

(** [os.path.splitext(p)] of posixpath. *)
Definition splitext (p : string) : string * string :=
  let sepIndex := rfind "/" p in
  let dotIndex := rfind "." p in
  if (sepIndex <? dotIndex)%Z
     && has_stem (String.length p) p (Z.to_nat (sepIndex + 1)) (Z.to_nat dotIndex)
  then (String.substring 0 (Z.to_nat dotIndex) p,
        String.substring (Z.to_nat dotIndex)
                         (String.length p - Z.to_nat dotIndex) p)
  else (p, "").

Definition starts_with_slash (s : string) : bool :=
  match s with
  | String "/" _ => true
  | _ => false
  end.

Fixpoint ends_with_slash (s : string) : bool :=
  match s with
  | EmptyString => false
  | String c EmptyString => Ascii.eqb c "/"
  | String _ s' => ends_with_slash s'
  end.

(** [os.path.join(a, b)] of posixpath, for two components. *)
Definition join (a b : string) : string :=
  if starts_with_slash b then b
  else if String.eqb a "" || ends_with_slash a then a +:+ b
  else a +:+ "/" +:+ b.

End OsPath.

(* ===================================================================== *)
(** ** [base64]                                                          *)
(* ===================================================================== *)

Module Base64.

Definition alphabet : list byte :=
  list_byte_of_string
    "ABCDEFGHIJKLMNOPQRSTUVWXYZabcdefghijklmnopqrstuvwxyz0123456789+/".

Definition pad : byte := "="%byte.

(** The character of a 6-bit value. *)
Definition char_of (n : N) : byte := default pad (alphabet !! N.to_nat n).

Fixpoint index_from (c : byte) (l : list byte) (i : N) : option N :=
  match l with
  | [] => None
  | x :: l' => if Byte.eqb x c then Some i else index_from c l' (N.succ i)
  end.

(** The 6-bit value of a character of the alphabet. *)
Definition index_of (c : byte) : option N := index_from c alphabet 0%N.

(** [base64.b64encode]: three bytes give four characters; a tail of one
    or two bytes is padded with [=]. *)
Fixpoint b64encode (s : bytes) : bytes :=
  match s with
  | [] => []
  | [a] =>
      let x := Byte.to_N a in
      [char_of (x / 4); char_of ((x mod 4) * 16); pad; pad]
  | [a; b] =>
      let x := Byte.to_N a in
      let y := Byte.to_N b in
      [char_of (x / 4); char_of ((x mod 4) * 16 + y / 16);
       char_of ((y mod 16) * 4); pad]
  | a :: b :: c :: rest =>
      let x := Byte.to_N a in
      let y := Byte.to_N b in
      let z := Byte.to_N c in
      char_of (x / 4) :: char_of ((x mod 4) * 16 + y / 16)
        :: char_of ((y mod 16) * 4 + z / 64) :: char_of (z mod 64)
        :: b64encode rest
  end%N.

Definition first_byte (i0 i1 : N) : option byte :=
  Byte.of_N (i0 * 4 + i1 / 16)%N.
Definition second_byte (i1 i2 : N) : option byte :=
  Byte.of_N ((i1 mod 16) * 16 + i2 / 4)%N.
Definition third_byte (i2 i3 : N) : option byte :=
  Byte.of_N ((i2 mod 4) * 64 + i3)%N.

(** The bytes of one group of four characters; [last] tells whether
    padding is allowed in it. *)
Definition decode_quad (last : bool) (c0 c1 c2 c3 : byte) : option bytes :=
  i0 ← index_of c0;
  i1 ← index_of c1;
  a ← first_byte i0 i1;
  if last && Byte.eqb c2 pad && Byte.eqb c3 pad then Some [a]
  else
    i2 ← index_of c2;
    b ← second_byte i1 i2;
    if last && Byte.eqb c3 pad then Some [a; b]
    else
      i3 ← index_of c3;
      c ← third_byte i2 i3;
      Some [a; b; c].

(** [base64.b64decode(s, validate=True)]: [None] stands for
    [binascii.Error]. *)
Fixpoint b64decode (s : bytes) : option bytes :=
  match s with
  | [] => Some []
  | c0 :: c1 :: c2 :: c3 :: rest =>
      match rest with
      | [] => decode_quad true c0 c1 c2 c3
      | _ :: _ =>
          q ← decode_quad false c0 c1 c2 c3;
          r ← b64decode rest;
          Some (q ++ r)
      end
  | _ => None
  end.

Definition in_alphabet (c : byte) : bool := bool_decide (is_Some (index_of c)).

(** A valid base64 text: groups of four characters of the alphabet, the
    last of which may end in one or two [=]. *)
Fixpoint valid (s : bytes) : bool :=
  match s with
  | [] => true
  | c0 :: c1 :: c2 :: c3 :: rest =>
      in_alphabet c0 && in_alphabet c1 &&
      match rest with
      | [] =>
          (Byte.eqb c2 pad && Byte.eqb c3 pad)
          || (in_alphabet c2 && (Byte.eqb c3 pad || in_alphabet c3))
      | _ :: _ => in_alphabet c2 && in_alphabet c3 && valid rest
      end
  | _ => false
  end.

End Base64.

(* ===================================================================== *)
(** ** The data of the service                                           *)
(* ===================================================================== *)

(** An entry of the image directory. *)
Inductive Node : Type :=
| RegularFile (content : bytes)
| Directory.

(** The label kinds of [brother_ql.devicedependent].  The three constants
    the module imports are distinct values; [OtherKind] is any other value
    a catalog entry may carry. *)
Inductive Kind : Type :=
| ENDLESS_LABEL
| DIE_CUT_LABEL
| ROUND_DIE_CUT_LABEL
| OtherKind (tag : Z).

#[global] Instance Kind_eq_dec : EqDecision Kind.
Proof. solve_decision. Defined.

(** An entry of [label_type_specs]. *)
Record LabelSpec : Type := {
  spec_name : string;
  dots_printable : Z * Z;
  spec_kind : Kind
}.

(** The [rotate] argument of [create_label]: a number of degrees, or
    ['auto']. *)
Inductive Rotate : Type :=
| RotateDeg (deg : Z)
| RotateAuto.

#[global] Instance Rotate_eq_dec : EqDecision Rotate.
Proof. solve_decision. Defined.

(** The arguments of [Image.transpose] that the module uses. *)
Inductive Transpose : Type :=
| ROTATE_90
| ROTATE_270.

(** An uploaded file, as bottle's [FileUpload]. *)
Record FileUpload : Type := {
  filename : string;
  upload_body : bytes
}.

(** A request: the query string, the form fields and the uploaded files.
    [request.params] combines the first two, a form field winning over a
    query field of the same name. *)
Record Request : Type := {
  query : gmap string string;
  forms : gmap string string;
  files : gmap string FileUpload
}.

Definition params (request : Request) : gmap string string :=
  forms request ∪ query request.

(** The label context of [get_label_context]. *)
Record Context : Type := {
  file_name : string;
  label_size : string;
  kind : Kind;
  orientation : string
}.

(** [CONFIG['PRINTER']]. *)
Record Config : Type := {
  PRINTER_MODEL : string;
  PRINTER_PRINTER : string
}.

(** The calls to the outside world, in the order they are made. *)
Inductive Event : Type :=
| LoggerWarning (msg : string)
| ImageOpen (path : string)
| UploadSave (path : string)
| OsRemove (path : string)
| RasterNew (model : string)
| CreateLabel (size : string) (cut : bool) (rotate : Rotate)
| BackendNew (printer : string)
| BackendWrite (data : bytes)
| BackendDispose.

(** The state the handlers run in: the module's globals, the entries of
    the image directory by name, the headers of the response and the
    trace. *)
Record World : Type := {
  CONFIG : Config;
  DEBUG : bool;
  FILE_NAMES : list string;
  img_dir : gmap string Node;
  headers : gmap string string;
  trace : list Event
}.

Definition with_FILE_NAMES (l : list string) (w : World) : World :=
  {| CONFIG := CONFIG w; DEBUG := DEBUG w; FILE_NAMES := l;
     img_dir := img_dir w; headers := headers w; trace := trace w |}.

Definition with_img_dir (d : gmap string Node) (w : World) : World :=
  {| CONFIG := CONFIG w; DEBUG := DEBUG w; FILE_NAMES := FILE_NAMES w;
     img_dir := d; headers := headers w; trace := trace w |}.

Definition with_headers (h : gmap string string) (w : World) : World :=
  {| CONFIG := CONFIG w; DEBUG := DEBUG w; FILE_NAMES := FILE_NAMES w;
     img_dir := img_dir w; headers := h; trace := trace w |}.

Definition with_event (ev : Event) (w : World) : World :=
  {| CONFIG := CONFIG w; DEBUG := DEBUG w; FILE_NAMES := FILE_NAMES w;
     img_dir := img_dir w; headers := headers w; trace := trace w ++ [ev] |}.

(** The collaborators.  None of them is part of the repository, so their
    answers are parameters: the catalog of label sizes, Pillow's decoder,
    transposition and PNG encoder, the effect of bottle's
    [FileUpload.save] on the image directory, the raster library and the
    three operations of the backend class. *)
Record Extern : Type := {
  label_type_specs : gmap string LabelSpec;
  Image : Type;
  decode : bytes → Outcome Image;
  transpose : Transpose → Image → Image;
  save_png : Image → bytes;
  save_upload : FileUpload → string → gmap string Node → Outcome (gmap string Node);
  raster_new : string → Outcome unit;
  raster_create_label : string → Image → string → bool → Rotate → Outcome bytes;
  backend_new : string → Outcome unit;
  backend_write : string → bytes → Outcome unit;
  backend_dispose : string → Outcome unit
}.

(** The body a text or image route returns. *)
Inductive Body : Type :=
| Text (s : string)
| Bytes (b : bytes).

(* ===================================================================== *)
(** ** The monad of the handlers                                         *)
(* ===================================================================== *)

(** A computation changes the world and returns or raises; what it did
    before raising stays done. *)
Definition M (A : Type) : Type := World → Outcome A * World.

#[global] Instance M_ret : MRet M := λ A a w, (Return a, w).

#[global] Instance M_bind : MBind M := λ A B f m w,
  match m w with
  | (Return a, w') => f a w'
  | (Raise e, w') => (Raise e, w')
  end.

Definition raise {A : Type} (e : Exc) : M A := λ w, (Raise e, w).

Definition lift {A : Type} (o : Outcome A) : M A := λ w, (o, w).

(** The outcome of a [try] block, handed to its [except] clauses. *)
Definition attempt {A : Type} (m : M A) : M (Outcome A) :=
  λ w, let '(o, w') := m w in (Return o, w').

Definition gets {A : Type} (f : World → A) : M A := λ w, (Return (f w), w).

Definition modify (f : World → World) : M unit := λ w, (Return tt, f w).

Definition emit (ev : Event) : M unit := modify (with_event ev).

(** Reading a local variable that may not have been bound. *)
Definition read_local {A : Type} (name : string) (v : option A) : M A :=
  match v with
  | Some a => mret a
  | None => raise (UnboundLocalError name)
  end.

(* ===================================================================== *)
(** ** The module                                                        *)
(* ===================================================================== *)

Import OsPath Base64.

Definition IMAGE_EXTENSIONS : list string := [".png"; ".jpg"; ".jpeg"; ".bmp"].

(** Set by [main] before the server starts. *)
Definition IMG_DIR : string := "./img/".


(** The model holds the image directory only: a path names an entry of it
    when it is [IMG_DIR] followed by the entry's name, and names nothing
    otherwise. *)
Fixpoint strip_prefix (p s : string) : option string :=
  match p, s with
  | EmptyString, _ => Some s
  | String a p', String b s' => if Ascii.eqb a b then strip_prefix p' s' else None
  | String _ _, EmptyString => None
  end.

Definition lookup_path (path : string) (d : gmap string Node) : option Node :=
  name ← strip_prefix IMG_DIR path; d !! name.

(** [os.listdir(IMG_DIR)]. *)
Definition os_listdir (d : gmap string Node) : list string := (map_to_list d).*1.

(** [os.path.isfile(path)]. *)
Definition os_path_isfile (path : string) (d : gmap string Node) : bool :=
  match lookup_path path d with
  | Some (RegularFile _) => true
  | _ => false
  end.

(** The list that [update_files] computes from the directory. *)
Definition scan (d : gmap string Node) : list string :=
  filter (λ f, os_path_isfile (join IMG_DIR f) d = true
               ∧ (splitext f).2 ∈ IMAGE_EXTENSIONS)
         (os_listdir d).

Definition update_files : M unit :=
  modify (λ w, with_FILE_NAMES (scan (img_dir w)) w).

Definition image_exists (image_name : string) : M bool :=
  update_files;;
  gets (λ w, bool_decide (image_name ∈ FILE_NAMES w)).

(** [os.remove(path)]. *)
Definition os_remove (path : string) : M unit := λ w,
  let w := with_event (OsRemove path) w in
  match strip_prefix IMG_DIR path with
  | Some name =>
      match img_dir w !! name with
      | Some (RegularFile _) => (Return tt, with_img_dir (delete name (img_dir w)) w)
      | Some Directory => (Raise (OSError ("Is a directory: " +:+ path)), w)
      | None => (Raise (OSError ("No such file or directory: " +:+ path)), w)
      end
  | None => (Raise (OSError ("No such file or directory: " +:+ path)), w)
  end.

Definition logger_warning (msg : string) : M unit := emit (LoggerWarning msg).

(** [response.set_header(name, value)]. *)
Definition set_header (name value : string) : M unit :=
  modify (λ w, with_headers (<[name := value]> (headers w)) w).

(** bottle's [redirect] leaves the handler by raising. *)
Definition redirect {A : Type} (url : string) : M A := raise (HTTPResponse url).

(** The binding of the local [rotate] in [print_image]: nothing is bound
    when neither test succeeds. *)
Definition rotate_binding (context : Context) : option Rotate :=
  if decide (kind context = ENDLESS_LABEL) then
    Some (if decide (orientation context = "standard") then RotateDeg 0
          else RotateDeg 90)
  else if decide (kind context ∈ [ROUND_DIE_CUT_LABEL; DIE_CUT_LABEL]) then
    Some RotateAuto
  else None.

Section Handlers.

Context (X : Extern).

(** [Image.open(path)]. *)
Definition Image_open (path : string) : M (Image X) := λ w,
  let w := with_event (ImageOpen path) w in
  match lookup_path path (img_dir w) with
  | Some (RegularFile content) => (decode X content, w)
  | Some Directory => (Raise (OSError ("Is a directory: " +:+ path)), w)
  | None => (Raise (OSError ("No such file or directory: " +:+ path)), w)
  end.

(** [upload.save(path)]. *)
Definition upload_save (upload : FileUpload) (path : string) : M unit := λ w,
  let w := with_event (UploadSave path) w in
  match save_upload X upload path (img_dir w) with
  | Return d => (Return tt, with_img_dir d w)
  | Raise e => (Raise e, w)
  end.

(** [BrotherQLRaster(model)]; the raster object is known by its model. *)
Definition BrotherQLRaster (model : string) : M string :=
  emit (RasterNew model);;
  lift (raster_new X model);;
  mret model.

(** [create_label(qlr, im, label_size, cut=cut, rotate=rotate)]; the
    result is [qlr.data] after the call. *)
Definition create_label (qlr : string) (im : Image X) (size : string)
    (cut : bool) (rotate : Rotate) : M bytes :=
  emit (CreateLabel size cut rotate);;
  lift (raster_create_label X qlr im size cut rotate).

(** [BACKEND_CLASS(printer)]; the handle is known by its printer. *)
Definition BACKEND_CLASS (printer : string) : M string :=
  emit (BackendNew printer);;
  lift (backend_new X printer);;
  mret printer.

Definition be_write (be : string) (data : bytes) : M unit :=
  emit (BackendWrite data);;
  lift (backend_write X be data).

Definition be_dispose (be : string) : M unit :=
  emit BackendDispose;;
  lift (backend_dispose X be).

Definition do_upload (request : Request) : M string :=
  match files request !! "upload" with
  | None => raise (AttributeError "'NoneType' object has no attribute 'filename'")
  | Some upload =>
      let ext := (splitext (filename upload)).2 in
      if decide (ext ∉ IMAGE_EXTENSIONS) then
        mret "File extension not allowed."
      else
        let file_path := join IMG_DIR (filename upload) in
        upload_save upload file_path;;
        update_files;;
        redirect "/labeldesigner"
  end.

(** Might raise [LookupError]. *)
Definition get_label_context (request : Request) : Outcome Context :=
  let d := params request in
  match label_type_specs X !! default "62" (d !! "label_size") with
  | None => Raise (KeyError (default "62" (d !! "label_size")))
  | Some spec =>
      Return {| file_name := default "image.png" (d !! "file_name");
                label_size := default "62" (d !! "label_size");
                kind := spec_kind spec;
                orientation := default "standard" (d !! "orientation") |}
  end.

Definition image_to_png_bytes (im : Image X) : bytes := save_png X im.

(** The transposition that [get_preview_image] applies for the
    requested orientation. *)
Definition preview_transpose (context : Context) (im : Image X) : Image X :=
  if decide (orientation context = "rotated+90") then
    transpose X ROTATE_90 im
  else if decide (orientation context = "rotated-90") then
    transpose X ROTATE_270 im
  else im.

Definition get_preview_image (request : Request) : M Body :=
  match get_label_context request with
  | Raise e =>
      if is_LookupError e then
        msg ← lift (getattr_msg e);
        mret (Text msg)
      else raise e
  | Return context =>
      found ← image_exists (file_name context);
      if negb found then
        logger_warning "Exception happened: Image not in directory";;
        mret (Text "Image not in directory")
      else
        im ← Image_open (join IMG_DIR (file_name context));
        let im := preview_transpose context im in
        let return_format := default "png" (query request !! "return_format") in
        if decide (return_format = "base64") then
          set_header "Content-type" "text/plain";;
          mret (Bytes (b64encode (image_to_png_bytes im)))
        else
          set_header "Content-type" "image/png";;
          mret (Bytes (image_to_png_bytes im))
  end.

Definition delete_image (request : Request) : M string :=
  match get_label_context request with
  | Raise e =>
      if is_LookupError e then lift (getattr_msg e) else raise e
  | Return context =>
      found ← image_exists (file_name context);
      if negb found then
        logger_warning "Exception happened: Image not in directory";;
        mret "Image not in directory"
      else
        let image := IMG_DIR +:+ file_name context in
        os_remove image;;
        update_files;;
        redirect "/labeldesigner"
  end.

Definition print_image (request : Request) : M (gmap string Val) :=
  let return_dict : gmap string Val := {[ "success" := VBool false ]} in
  match get_label_context request with
  | Raise e =>
      if is_LookupError e then
        msg ← lift (getattr_msg e);
        mret (<["error" := VStr msg]> return_dict)
      else raise e
  | Return context =>
      found ← image_exists (file_name context);
      if negb found then
        let return_dict := <["message" := VStr "Image not in directory"]> return_dict in
        logger_warning "Exception happened: Image not in directory";;
        mret return_dict
      else
        im ← Image_open (join IMG_DIR (file_name context));
        let rotate := rotate_binding context in
        model ← gets (λ w, PRINTER_MODEL (CONFIG w));
        qlr ← BrotherQLRaster model;
        rotate ← read_local "rotate" rotate;
        data ← create_label qlr im (label_size context) true rotate;
        debug ← gets DEBUG;
        sent ← (if negb debug then
                  attempt (printer ← gets (λ w, PRINTER_PRINTER (CONFIG w));
                           be ← BACKEND_CLASS printer;
                           be_write be data;;
                           be_dispose be)
                else mret (Return tt));
        match sent with
        | Raise e =>
            if is_Exception e then
              let return_dict := <["message" := VStr (str_exc e)]> return_dict in
              logger_warning ("Exception happened: " +:+ str_exc e);;
              mret return_dict
            else raise e
        | Return _ =>
            let return_dict := <["success" := VBool true]> return_dict in
            let return_dict :=
              if (debug : bool) then <["data" := VStr (str_bytes data)]> return_dict
              else return_dict in
            mret return_dict
        end
  end.

End Handlers.

(* ===================================================================== *)
(** ** A concrete installation                                           *)
(* ===================================================================== *)

(** A small catalog, a directory with two images, a text file and a
    sub-directory, and collaborators that always answer: the statements
    below are tried on it. *)
Module Sample.

Definition catalog : gmap string LabelSpec :=
  list_to_map
    [("62", {| spec_name := "62mm endless"; dots_printable := (696, 0)%Z;
               spec_kind := ENDLESS_LABEL |});
     ("29x90", {| spec_name := "29mm x 90mm die-cut"; dots_printable := (306, 991)%Z;
                  spec_kind := DIE_CUT_LABEL |});
     ("d24", {| spec_name := "24mm round die-cut"; dots_printable := (236, 236)%Z;
                spec_kind := ROUND_DIE_CUT_LABEL |});
     ("pt12", {| spec_name := "12mm tape"; dots_printable := (170, 0)%Z;
                 spec_kind := OtherKind 4 |})].

(** An image is its file's content behind the list of transpositions
    applied to it; its PNG form writes one letter per transposition
    before the content. *)
Definition letter (t : Transpose) : byte :=
  match t with
  | ROTATE_90 => "L"%byte
  | ROTATE_270 => "R"%byte
  end.

Definition X : Extern :=
  {| label_type_specs := catalog;
     Image := bytes;
     decode := λ content, Return content;
     transpose := λ t im, letter t :: im;
     save_png := λ im, im;
     save_upload := λ upload path d,
       match strip_prefix IMG_DIR path with
       | Some name => Return (<[name := RegularFile (upload_body upload)]> d)
       | None => Return d
       end;
     raster_new := λ _, Return tt;
     raster_create_label := λ _ im size _ rotate,
       Return (match rotate with
               | RotateAuto => "a"%byte
               | RotateDeg _ => "d"%byte
               end :: im);
     backend_new := λ _, Return tt;
     backend_write := λ _ _, Return tt;
     backend_dispose := λ _, Return tt |}.

(** The same installation with a printer that cannot be reached. *)
Definition X_offline : Extern :=
  {| label_type_specs := catalog;
     Image := bytes;
     decode := decode X;
     transpose := transpose X;
     save_png := save_png X;
     save_upload := save_upload X;
     raster_new := raster_new X;
     raster_create_label := raster_create_label X;
     backend_new := λ _, Raise (LibraryError "Device not found");
     backend_write := backend_write X;
     backend_dispose := backend_dispose X |}.

Definition dir : gmap string Node :=
  list_to_map
    [("image.png", RegularFile (list_byte_of_string "PNG1"));
     ("logo.jpg", RegularFile (list_byte_of_string "JPG2"));
     ("notes.txt", RegularFile (list_byte_of_string "text"));
     ("old.png", Directory)].

Definition world (debug : bool) : World :=
  {| CONFIG := {| PRINTER_MODEL := "QL-500";
                  PRINTER_PRINTER := "file:///dev/usb/lp0" |};
     DEBUG := debug;
     FILE_NAMES := [];
     img_dir := dir;
     headers := ∅;
     trace := [] |}.

Definition request (fields : list (string * string)) : Request :=
  {| query := list_to_map fields; forms := ∅; files := ∅ |}.

Definition upload (name : string) : FileUpload :=
  {| filename := name; upload_body := list_byte_of_string "BM" |}.

Definition upload_request (name : string) : Request :=
  {| query := ∅; forms := ∅; files := {[ "upload" := upload name ]} |}.

Definition context (name size : string) (k : Kind) (o : string) : Context :=
  {| file_name := name; label_size := size; kind := k; orientation := o |}.

End Sample.

(* ===================================================================== *)
(** ** Vocabulary of the statements                                      *)
(* ===================================================================== *)

(** [calls w w' evs]: between [w] and [w'] exactly the calls [evs] were
    made, in that order. *)
Definition calls (w w' : World) (evs : list Event) : Prop :=
  trace w' = trace w ++ evs.

(** The calls that reach the backend transport. *)
Definition is_backend_event (ev : Event) : bool :=
  match ev with
  | BackendNew _ | BackendWrite _ | BackendDispose => true
  | _ => false
  end.

(** The calls by which an operation acts on an image: everything but a
    line in the log. *)
Definition is_action (ev : Event) : bool :=
  match ev with
  | LoggerWarning _ => false
  | _ => true
  end.

(** The [rotate] arguments handed to [create_label] among some calls. *)
Definition rotations (evs : list Event) : list Rotate :=
  omap (λ ev, match ev with
              | CreateLabel _ _ rotate => Some rotate
              | _ => None
              end) evs.

(** The world a handler leaves when it turns a request down for its
    image: the list of names is refreshed and a warning is logged. *)
Definition turned_down (w : World) : World :=
  with_event (LoggerWarning "Exception happened: Image not in directory")
             (with_FILE_NAMES (scan (img_dir w)) w).

(** Two requests carry the same label parameters. *)
Definition same_label_parameters (r1 r2 : Request) : Prop :=
  ∀ k, k ∈ ["file_name"; "label_size"; "orientation"] →
       params r1 !! k = params r2 !! k.

(** The parameters that [get_label_context] reads for the file and the
    label size, with their defaults. *)
Definition requested_file (request : Request) : string :=
  default "image.png" (params request !! "file_name").

Definition requested_size (request : Request) : string :=
  default "62" (params request !! "label_size").

(** The text of the [AttributeError] that [e.msg] raises on a
    [KeyError]. *)
Definition no_msg_attribute : string := "'KeyError' object has no attribute 'msg'".

(* ===================================================================== *)
(** ** The designer page and the start of the server                     *)
(* ===================================================================== *)

(** A value that comes from the command line or from [config.json]: the
    default [False] of an option that was not given, a text, or a number
    (a port of the configuration file, a level of [logging]). *)
Inductive Setting : Type :=
| SFalse
| SStr (s : string)
| SInt (n : Z).

(** The truth value of [if v:]. *)
Definition truthy (v : Setting) : bool :=
  match v with
  | SFalse => false
  | SStr s => negb (String.eqb s "")
  | SInt n => negb (n =? 0)%Z
  end.

(** [v == s] for a text [s]: a number or [False] never equals a text. *)
Definition setting_is (v : Setting) (s : string) : bool :=
  match v with
  | SStr t => String.eqb t s
  | _ => false
  end.

(** A text option under [if a:]: its text when it was given and is not
    empty. *)
Definition given (a : option string) : option string :=
  match a with
  | Some s => if String.eqb s "" then None else Some s
  | None => None
  end.

(** What [parser.parse_args()] returns.  [arg_loglevel] is what the
    option's [type] function made of the text: for the name of a level of
    [logging], the level's number. *)
Record Args : Type := {
  arg_port : option string;
  arg_loglevel : Setting;
  arg_default_label_size : option string;
  arg_default_orientation : option string;
  arg_model : option string;
  arg_printer : option string
}.

(** [CONFIG], as read from [config.json]. *)
Record Settings : Type := {
  SERVER_HOST : string;
  SERVER_PORT : Setting;
  SERVER_LOGLEVEL : Setting;
  PRINTER : Config;
  LABEL_DEFAULT_SIZE : string;
  LABEL_DEFAULT_ORIENTATION : string;
  WEBSITE : gmap string string
}.

Definition with_PRINTER (p : Config) (c : Settings) : Settings :=
  {| SERVER_HOST := SERVER_HOST c; SERVER_PORT := SERVER_PORT c;
     SERVER_LOGLEVEL := SERVER_LOGLEVEL c; PRINTER := p;
     LABEL_DEFAULT_SIZE := LABEL_DEFAULT_SIZE c;
     LABEL_DEFAULT_ORIENTATION := LABEL_DEFAULT_ORIENTATION c;
     WEBSITE := WEBSITE c |}.

Definition with_LABEL (size orient : string) (c : Settings) : Settings :=
  {| SERVER_HOST := SERVER_HOST c; SERVER_PORT := SERVER_PORT c;
     SERVER_LOGLEVEL := SERVER_LOGLEVEL c; PRINTER := PRINTER c;
     LABEL_DEFAULT_SIZE := size;
     LABEL_DEFAULT_ORIENTATION := orient;
     WEBSITE := WEBSITE c |}.

(** What [main] needs of its libraries: the list [label_sizes] of
    brother_ql, [logging.basicConfig], [guess_backend] ([None] stands for
    its [ValueError]) and [backend_factory]. *)
Record Boot : Type := {
  label_sizes : list string;
  basicConfig : Setting → Outcome unit;
  guess_backend : string → option string;
  backend_factory : string → Outcome unit
}.

(** How [main] ends: it hands over to bottle's [run], it leaves through
    [parser.error] (the usage message and [SystemExit]), or an exception
    of a library goes through it. *)
Inductive Startup : Type :=
| Serving (host : string) (port : Setting) (debug : bool) (backend : string)
          (config : Settings) (w : World)
| UsageError (message : string)
| Crashed (e : Exc).

Definition newline : ascii := ascii_of_nat 10.

Definition main (B : Boot) (args : Args) (CONFIG0 : Settings)
    (d : gmap string Node) : Startup :=
  (* IMG_DIR = "./img/"; update_files() *)
  let file_names := scan d in
  let config :=
    match given (arg_printer args) with
    | Some p =>
        with_PRINTER {| PRINTER_MODEL := PRINTER_MODEL (PRINTER CONFIG0);
                        PRINTER_PRINTER := p |} CONFIG0
    | None => CONFIG0
    end in
  let PORT :=
    match given (arg_port args) with
    | Some p => SStr p
    | None => SERVER_PORT config
    end in
  let LOGLEVEL :=
    if truthy (arg_loglevel args) then arg_loglevel args
    else SERVER_LOGLEVEL config in
  let debug := setting_is LOGLEVEL "DEBUG" in
  let config :=
    match given (arg_model args) with
    | Some m =>
        with_PRINTER {| PRINTER_MODEL := m;
                        PRINTER_PRINTER := PRINTER_PRINTER (PRINTER config) |}
                     config
    | None => config
    end in
  let config :=
    match given (arg_default_label_size args) with
    | Some s => with_LABEL s (LABEL_DEFAULT_ORIENTATION config) config
    | None => config
    end in
  let config :=
    match given (arg_default_orientation args) with
    | Some o => with_LABEL (LABEL_DEFAULT_SIZE config) o config
    | None => config
    end in
  match basicConfig B LOGLEVEL with
  | Raise e => Crashed e
  | Return _ =>
      match guess_backend B (PRINTER_PRINTER (PRINTER config)) with
      | None =>
          UsageError
            "Couln't guess the backend to use from the printer string descriptor"
      | Some selected_backend =>
          match backend_factory B selected_backend with
          | Raise e => Crashed e
          | Return _ =>
              if decide (LABEL_DEFAULT_SIZE config ∉ label_sizes B) then
                UsageError
                  ("Invalid --default-label-size. Please choose on of the following:"
                     +:+ String newline ":"
                     +:+ String.concat " " (label_sizes B))
              else
                Serving (SERVER_HOST config) PORT debug selected_backend config
                        {| CONFIG := PRINTER config;
                           DEBUG := debug;
                           FILE_NAMES := file_names;
                           img_dir := d;
                           headers := ∅;
                           trace := [] |}
          end
      end
  end.

(** The module-level list [LABEL_SIZES], built from the names of
    [label_sizes]: a name without specification raises [KeyError]. *)
Fixpoint LABEL_SIZES (X : Extern) (names : list string)
    : Outcome (list (string * string * (Z * Z))) :=
  match names with
  | [] => Return []
  | name :: rest =>
      match label_type_specs X !! name with
      | None => Raise (KeyError name)
      | Some spec =>
          match LABEL_SIZES X rest with
          | Return rows =>
              Return ((name, spec_name spec, dots_printable spec) :: rows)
          | Raise e => Raise e
          end
      end
  end.





(** The three handlers that take a file name make no call that opens or
    removes a file unless its path is [IMG_DIR] followed by a name of the
    scan, and never save one. *)
Definition touch_listed_files_only (w : World) (evs : list Event) : Prop :=
  ∀ ev, ev ∈ evs →
    match ev with
    | ImageOpen path | OsRemove path =>
        ∃ name, name ∈ scan (img_dir w) ∧ path = IMG_DIR +:+ name
    | UploadSave _ => False
    | _ => True
    end.

(** [print_image] gets as far as the encoded buffer [data]: the context
    is parsed, the image is in the store and opens, the raster object is
    built, [rotate] is bound and [create_label] leaves [data]. *)
Definition encodes (X : Extern) (request : Request) (w : World)
    (context : Context) (rotate : Rotate) (data : bytes) : Prop :=
  get_label_context X request = Return context
  ∧ file_name context ∈ scan (img_dir w)
  ∧ rotate_binding context = Some rotate
  ∧ raster_new X (PRINTER_MODEL (CONFIG w)) = Return ()
  ∧ ∃ content im,
      img_dir w !! file_name context = Some (RegularFile content)
      ∧ decode X content = Return im
      ∧ raster_create_label X (PRINTER_MODEL (CONFIG w)) im
                            (label_size context) true rotate = Return data.

(** The calls of [print_image] up to the encoded buffer. *)
Definition encoding_calls (w : World) (context : Context) (rotate : Rotate)
    : list Event :=
  [ImageOpen (join IMG_DIR (file_name context));
   RasterNew (PRINTER_MODEL (CONFIG w));
   CreateLabel (label_size context) true rotate].

(** A start of the server for the tries below. *)
Module SampleBoot.

Definition B : Boot :=
  {| label_sizes := ["62"; "29x90"; "d24"; "pt12"];
     basicConfig := λ _, Return tt;
     guess_backend := λ p,
       if String.prefix "file://" p then Some "linux_kernel"
       else if String.prefix "tcp://" p then Some "network"
       else None;
     backend_factory := λ _, Return tt |}.

Definition config : Settings :=
  {| SERVER_HOST := "localhost";
     SERVER_PORT := SInt 8013;
     SERVER_LOGLEVEL := SStr "WARNING";
     PRINTER := {| PRINTER_MODEL := "QL-500";
                   PRINTER_PRINTER := "file:///dev/usb/lp0" |};
     LABEL_DEFAULT_SIZE := "62";
     LABEL_DEFAULT_ORIENTATION := "standard";
     WEBSITE := {[ "HTML_TITLE" := "Label Designer" ]} |}.

Definition no_args : Args :=
  {| arg_port := None; arg_loglevel := SFalse;
     arg_default_label_size := None; arg_default_orientation := None;
     arg_model := None; arg_printer := None |}.

(** [--loglevel debug]: the option's [type] function turns the text into
    [logging.DEBUG], which is 10. *)
Definition loglevel_debug : Args :=
  {| arg_port := None; arg_loglevel := SInt 10;
     arg_default_label_size := None; arg_default_orientation := None;
     arg_model := None; arg_printer := None |}.

(** As [Sample.X], with a transport that fails when written to, and one
    that fails when disposed of. *)
Definition X_write_fails : Extern :=
  {| label_type_specs := label_type_specs Sample.X;
     Image := Image Sample.X;
     decode := decode Sample.X;
     transpose := transpose Sample.X;
     save_png := save_png Sample.X;
     save_upload := save_upload Sample.X;
     raster_new := raster_new Sample.X;
     raster_create_label := raster_create_label Sample.X;
     backend_new := backend_new Sample.X;
     backend_write := λ _ _, Raise (LibraryError "Broken pipe");
     backend_dispose := backend_dispose Sample.X |}.

Definition X_dispose_fails : Extern :=
  {| label_type_specs := label_type_specs Sample.X;
     Image := Image Sample.X;
     decode := decode Sample.X;
     transpose := transpose Sample.X;
     save_png := save_png Sample.X;
     save_upload := save_upload Sample.X;
     raster_new := raster_new Sample.X;
     raster_create_label := raster_create_label Sample.X;
     backend_new := backend_new Sample.X;
     backend_write := backend_write Sample.X;
     backend_dispose := λ _, Raise (LibraryError "Resource busy") |}.


End SampleBoot.

(* ===================================================================== *)
(** ** base64: decoding undoes encoding                                  *)
(* ===================================================================== *)

Module Base64Facts.
Import Base64.

Local Ltac Zify.zify_post_hook ::= Z.to_euclidean_division_equations.

Lemma bytes_ind3 (P : bytes → Prop) :
  P [] → (∀ a, P [a]) → (∀ a b, P [a; b]) →
  (∀ a b c rest, P rest → P (a :: b :: c :: rest)) →
  ∀ s, P s.
Proof.
  intros H0 H1 H2 H3 s.
  assert (Hn : ∀ n (l : bytes), (length l ≤ n)%nat → P l).
  { induction n as [|n IH]; intros l Hl.
    - destruct l; [done | simpl in Hl; lia].
    - destruct l as [|a [|b [|c rest]]]; auto.
      apply H3, IH. simpl in Hl. lia. }
  by apply (Hn (length s)).
Qed.

Lemma to_N_lt (a : byte) : (Byte.to_N a < 256)%N.
Proof. pose proof (Byte.to_N_bounded a). lia. Qed.

Lemma index_of_char_of (n : N) :
  (n < 64)%N → index_of (char_of n) = Some n.
Proof.
  intros Hn. destruct n as [|p]; [done|].
  do 7 (destruct p as [p|p|]; try (exfalso; lia); try reflexivity).
Qed.

Lemma char_of_not_pad (n : N) :
  (n < 64)%N → Byte.eqb (char_of n) pad = false.
Proof.
  intros Hn. destruct n as [|p]; [done|].
  do 7 (destruct p as [p|p|]; try (exfalso; lia); try reflexivity).
Qed.

Lemma first_byte_ok (a : byte) (r : N) :
  (r < 16)%N →
  first_byte (Byte.to_N a / 4) ((Byte.to_N a mod 4) * 16 + r) = Some a.
Proof.
  intros Hr. unfold first_byte.
  replace (_ + _)%N with (Byte.to_N a) by lia.
  apply Byte.of_to_N.
Qed.

Lemma second_byte_ok (b : byte) (q r : N) :
  (q < 4)%N → (r < 4)%N →
  second_byte (q * 16 + Byte.to_N b / 16) ((Byte.to_N b mod 16) * 4 + r) = Some b.
Proof.
  intros Hq Hr. unfold second_byte.
  pose proof (to_N_lt b).
  replace (_ + _)%N with (Byte.to_N b) by lia.
  apply Byte.of_to_N.
Qed.

Lemma third_byte_ok (c : byte) (q : N) :
  (q < 16)%N →
  third_byte (q * 4 + Byte.to_N c / 64) (Byte.to_N c mod 64) = Some c.
Proof.
  intros Hq. unfold third_byte.
  pose proof (to_N_lt c).
  replace (_ + _)%N with (Byte.to_N c) by lia.
  apply Byte.of_to_N.
Qed.

(** The four 6-bit values of a group are below 64. *)
Lemma sextets_lt (a b c : byte) :
  (Byte.to_N a / 4 < 64
   ∧ (Byte.to_N a mod 4) * 16 + Byte.to_N b / 16 < 64
   ∧ (Byte.to_N b mod 16) * 4 + Byte.to_N c / 64 < 64
   ∧ Byte.to_N c mod 64 < 64
   ∧ (Byte.to_N a mod 4) * 16 < 64
   ∧ (Byte.to_N b mod 16) * 4 < 64)%N.
Proof.
  pose proof (to_N_lt a). pose proof (to_N_lt b). pose proof (to_N_lt c). lia.
Qed.

Lemma decode_quad_three (last : bool) (a b c : byte) :
  let x := Byte.to_N a in
  let y := Byte.to_N b in
  let z := Byte.to_N c in
  decode_quad last (char_of (x / 4)) (char_of ((x mod 4) * 16 + y / 16))
              (char_of ((y mod 16) * 4 + z / 64)) (char_of (z mod 64))
  = Some [a; b; c].
Proof.
  intros x y z. subst x y z.
  destruct (sextets_lt a b c) as (H0 & H1 & H2 & H3 & _ & _).
  pose proof (to_N_lt b). pose proof (to_N_lt c).
  unfold decode_quad.
  rewrite !index_of_char_of by done. simpl.
  rewrite first_byte_ok by lia. simpl.
  rewrite !char_of_not_pad by done. rewrite !andb_false_r. simpl.
  rewrite second_byte_ok by lia. simpl.
  rewrite third_byte_ok by lia. done.
Qed.

Lemma decode_quad_two (a b : byte) :
  decode_quad true (char_of (Byte.to_N a / 4))
              (char_of ((Byte.to_N a mod 4) * 16 + Byte.to_N b / 16))
              (char_of ((Byte.to_N b mod 16) * 4)) pad
  = Some [a; b].
Proof.
  destruct (sextets_lt a b b) as (H0 & H1 & _ & _ & _ & H2).
  pose proof (to_N_lt b).
  unfold decode_quad.
  rewrite !index_of_char_of by done. simpl.
  rewrite first_byte_ok by lia. simpl.
  rewrite char_of_not_pad by done. simpl.
  rewrite <- (N.add_0_r (Byte.to_N b mod 16 * 4)).
  rewrite second_byte_ok by lia. done.
Qed.

Lemma decode_quad_one (a : byte) :
  decode_quad true (char_of (Byte.to_N a / 4))
              (char_of ((Byte.to_N a mod 4) * 16)) pad pad
  = Some [a].
Proof.
  destruct (sextets_lt a a a) as (H0 & _ & _ & _ & H1 & _).
  unfold decode_quad.
  rewrite !index_of_char_of by done. simpl.
  rewrite <- (N.add_0_r (Byte.to_N a mod 4 * 16)).
  rewrite first_byte_ok by lia. done.
Qed.

Lemma in_alphabet_char_of (n : N) : (n < 64)%N → in_alphabet (char_of n) = true.
Proof.
  intros Hn. unfold in_alphabet. rewrite index_of_char_of by done.
  by apply bool_decide_eq_true.
Qed.

(** Decoding undoes encoding. *)
Lemma b64decode_b64encode (s : bytes) : b64decode (b64encode s) = Some s.
Proof.
  induction s as [|a|a b|a b c rest IH] using bytes_ind3.
  - done.
  - apply decode_quad_one.
  - apply decode_quad_two.
  - change (b64encode (a :: b :: c :: rest))
      with (char_of (Byte.to_N a / 4)
            :: char_of ((Byte.to_N a mod 4) * 16 + Byte.to_N b / 16)
            :: char_of ((Byte.to_N b mod 16) * 4 + Byte.to_N c / 64)
            :: char_of (Byte.to_N c mod 64) :: b64encode rest).
    cbn [b64decode]. rewrite !decode_quad_three.
    destruct (b64encode rest) as [|c0 tail] eqn:Hrest.
    + simpl in IH. by simplify_eq.
    + rewrite IH. done.
Qed.

(** An encoding is a valid base64 text. *)
Lemma valid_b64encode (s : bytes) : valid (b64encode s) = true.
Proof.
  induction s as [|a|a b|a b c rest IH] using bytes_ind3.
  - done.
  - destruct (sextets_lt a a a) as (H0 & _ & _ & _ & H1 & _).
    cbn. rewrite !in_alphabet_char_of by done. done.
  - destruct (sextets_lt a b b) as (H0 & H1 & _ & _ & _ & H2).
    cbn. rewrite !in_alphabet_char_of by done.
    by rewrite orb_true_r.
  - destruct (sextets_lt a b c) as (H0 & H1 & H2 & H3 & _ & _).
    change (b64encode (a :: b :: c :: rest))
      with (char_of (Byte.to_N a / 4)
            :: char_of ((Byte.to_N a mod 4) * 16 + Byte.to_N b / 16)
            :: char_of ((Byte.to_N b mod 16) * 4 + Byte.to_N c / 64)
            :: char_of (Byte.to_N c mod 64) :: b64encode rest).
    cbn [valid]. rewrite !in_alphabet_char_of by done.
    destruct (b64encode rest); [by rewrite !orb_true_r | exact IH].
Qed.
End Base64Facts.

(* ===================================================================== *)
(** ** The image store                                                   *)
(* ===================================================================== *)

Section Store.

Implicit Types (d : gmap string Node) (f : string).

Lemma strip_prefix_app (p s : string) : strip_prefix p (p +:+ s) = Some s.
Proof. induction p as [|a p IH]; simpl; [done|]. by rewrite Ascii.eqb_refl. Qed.

Lemma join_IMG_DIR f :
  join IMG_DIR f = if starts_with_slash f then f else IMG_DIR +:+ f.
Proof. unfold join. by destruct (starts_with_slash f). Qed.

Lemma strip_prefix_slash f :
  starts_with_slash f = true → strip_prefix IMG_DIR f = None.
Proof.
  destruct f as [|c f]; [done|].
  destruct c as [[] [] [] [] [] [] [] []]; done.
Qed.

Lemma lookup_path_join f d :
  starts_with_slash f = false → lookup_path (join IMG_DIR f) d = d !! f.
Proof.
  intros Hf. rewrite join_IMG_DIR, Hf. unfold lookup_path.
  by rewrite strip_prefix_app.
Qed.

Lemma os_path_isfile_join f d :
  os_path_isfile (join IMG_DIR f) d = true ↔
  starts_with_slash f = false ∧ ∃ content, d !! f = Some (RegularFile content).
Proof.
  unfold os_path_isfile. destruct (starts_with_slash f) eqn:Hf.
  - rewrite join_IMG_DIR, Hf. unfold lookup_path.
    rewrite strip_prefix_slash by done. simpl.
    split; [done | by intros [? _]].
  - rewrite lookup_path_join by done.
    destruct (d !! f) as [[content|]|]; split; try done.
    + intros _. split; [done | by exists content].
    + by intros [_ [? ?]].
    + by intros [_ [? ?]].
Qed.

Lemma elem_of_os_listdir f d : f ∈ os_listdir d ↔ is_Some (d !! f).
Proof.
  unfold os_listdir. rewrite list_elem_of_fmap. split.
  - intros ([k x] & -> & Hin). apply elem_of_map_to_list in Hin. by exists x.
  - intros [x Hx]. exists (f, x). split; [done|]. by apply elem_of_map_to_list.
Qed.

(** What the scan keeps: the regular files of the directory whose
    extension is on the list. *)
Lemma elem_of_scan f d :
  f ∈ scan d ↔
  (starts_with_slash f = false ∧ ∃ content, d !! f = Some (RegularFile content))
  ∧ (splitext f).2 ∈ IMAGE_EXTENSIONS.
Proof.
  unfold scan. rewrite list_elem_of_filter, os_path_isfile_join, elem_of_os_listdir.
  split; [by intros [? _] |].
  intros [[Hf [content Hc]] Hext]. repeat split; eauto.
Qed.

Lemma lookup_path_scan f d :
  f ∈ scan d → ∃ content, lookup_path (join IMG_DIR f) d = Some (RegularFile content)
                         ∧ d !! f = Some (RegularFile content).
Proof.
  rewrite elem_of_scan. intros [[Hf [content Hc]] _]. exists content.
  by rewrite lookup_path_join.
Qed.

End Store.

(* ===================================================================== *)
(** ** Running the handlers                                              *)
(* ===================================================================== *)

(** Unfolds the monad and the primitive operations, then reads the fields
    of the worlds that appear. *)
Ltac run :=
  cbv beta iota zeta delta
    [mbind M_bind mret M_ret raise lift attempt gets modify emit read_local
     logger_warning set_header redirect
     Image_open upload_save BrotherQLRaster create_label BACKEND_CLASS
     be_write be_dispose update_files image_exists os_remove
     negb is_Exception is_LookupError];
  cbn [img_dir FILE_NAMES DEBUG CONFIG trace headers
       with_event with_FILE_NAMES with_img_dir with_headers fst snd].

(** Steps over the existence check and the opening of a file that the
    scan holds. *)
Ltac found_in Hf :=
  let content := fresh "content" in
  let Hp := fresh "Hp" in
  let Hd := fresh "Hd" in
  destruct (lookup_path_scan _ _ Hf) as (content & Hp & Hd);
  run; rewrite (bool_decide_true _ Hf); run; rewrite ?Hp; run.

(** Gives the calls made, read off the trace of the final world. *)
Ltac have_calls :=
  eexists; split;
  [ unfold calls; run; rewrite <- ?app_assoc;
    first [reflexivity | symmetry; apply app_nil_r] | ].

(** Follows every answer a collaborator may give. *)
Ltac explore :=
  repeat match goal with
         | |- context [match ?x with Return _ => _ | Raise _ => _ end] =>
             destruct x eqn:?; run
         | |- context [if DEBUG ?w then _ else _] => destruct (DEBUG w) eqn:?; run
         end.

(** Gives the calls made after a first one. *)
Ltac first_call :=
  eexists; unfold calls; run; rewrite <- ?app_assoc; reflexivity.

Ltac leaf :=
  repeat split; intros;
  try match goal with H : _ ∈ [] |- _ => by inversion H end;
  try (simplify_eq; congruence).

Section Run.

Context (X : Extern).
Implicit Types (w : World) (request : Request) (context : Context).

Lemma image_exists_run (f : string) w :
  image_exists f w
  = (Return (bool_decide (f ∈ scan (img_dir w))),
     with_FILE_NAMES (scan (img_dir w)) w).
Proof. done. Qed.

(** Context parsing fails on an unknown label size only, with the
    [KeyError] of the catalog lookup. *)
Lemma get_label_context_unknown request :
  label_type_specs X !! requested_size request = None →
  get_label_context X request = Raise (KeyError (requested_size request)).
Proof.
  intros H. unfold get_label_context. fold (requested_size request).
  by rewrite H.
Qed.

Lemma get_label_context_Raise request e :
  get_label_context X request = Raise e →
  e = KeyError (requested_size request)
  ∧ label_type_specs X !! requested_size request = None.
Proof.
  unfold get_label_context. fold (requested_size request).
  destruct (label_type_specs X !! _) eqn:H; intros; by simplify_eq.
Qed.

Lemma get_label_context_Return request context :
  get_label_context X request = Return context →
  file_name context = requested_file request
  ∧ label_size context = requested_size request
  ∧ is_Some (label_type_specs X !! requested_size request).
Proof.
  unfold get_label_context. fold (requested_size request).
  destruct (label_type_specs X !! _) eqn:H; intros; simplify_eq.
  by repeat split.
Qed.

Lemma get_label_context_known request :
  is_Some (label_type_specs X !! requested_size request) →
  ∃ context, get_label_context X request = Return context
             ∧ file_name context = requested_file request.
Proof.
  intros [spec H]. unfold get_label_context. fold (requested_size request).
  rewrite H. by eexists.
Qed.

Lemma get_label_context_same (r1 r2 : Request) :
  same_label_parameters r1 r2 →
  get_label_context X r1 = get_label_context X r2.
Proof.
  intros H. unfold get_label_context.
  rewrite (H "file_name"), (H "label_size"), (H "orientation"); [done|..];
    repeat first [apply list_elem_of_here | apply list_elem_of_further].
Qed.

Lemma rotate_binding_endless_standard context :
  kind context = ENDLESS_LABEL → orientation context = "standard" →
  rotate_binding context = Some (RotateDeg 0).
Proof. intros Hk Ho. unfold rotate_binding. by rewrite !decide_True. Qed.

Lemma rotate_binding_endless_other context :
  kind context = ENDLESS_LABEL → orientation context ≠ "standard" →
  rotate_binding context = Some (RotateDeg 90).
Proof.
  intros Hk Ho. unfold rotate_binding.
  by rewrite decide_True, decide_False.
Qed.

Lemma rotate_binding_die_cut context :
  kind context = DIE_CUT_LABEL ∨ kind context = ROUND_DIE_CUT_LABEL →
  rotate_binding context = Some RotateAuto.
Proof.
  intros Hk. unfold rotate_binding.
  rewrite decide_False by (destruct Hk as [-> | ->]; done).
  rewrite decide_True; [done|].
  destruct Hk as [-> | ->]; [apply list_elem_of_further|]; apply list_elem_of_here.
Qed.

Lemma rotate_binding_is_Some context :
  is_Some (rotate_binding context) ↔
  kind context ∈ [ENDLESS_LABEL; DIE_CUT_LABEL; ROUND_DIE_CUT_LABEL].
Proof.
  unfold rotate_binding.
  destruct (decide (kind context = ENDLESS_LABEL)) as [Hk|Hne].
  - rewrite Hk. split; [intros _; apply list_elem_of_here | by eexists].
  - destruct (decide (kind context ∈ _)) as [Hin|Hout].
    + split; [|by eexists]. intros _.
      apply elem_of_cons in Hin as [Hin|Hin%list_elem_of_singleton]; rewrite Hin.
      * do 2 apply list_elem_of_further. apply list_elem_of_here.
      * apply list_elem_of_further, list_elem_of_here.
    + split; [by intros [? ?]|]. intros Hk. exfalso. apply Hout.
      apply elem_of_cons in Hk as [?|Hk]; [done|].
      apply elem_of_cons in Hk as [Hk|Hk%list_elem_of_singleton]; rewrite Hk.
      * apply list_elem_of_further, list_elem_of_here.
      * apply list_elem_of_here.
Qed.

(** *** The three ways out of [print_image] before the image is opened *)

Lemma print_image_unknown_size request w :
  label_type_specs X !! requested_size request = None →
  print_image X request w = (Raise (AttributeError no_msg_attribute), w).
Proof.
  intros H. unfold print_image. by rewrite get_label_context_unknown.
Qed.

Lemma print_image_turned_down request context w :
  get_label_context X request = Return context →
  file_name context ∉ scan (img_dir w) →
  print_image X request w
  = (Return (<["message" := VStr "Image not in directory"]>
               {[ "success" := VBool false ]}),
     turned_down w).
Proof.
  intros Hc Hf. unfold print_image. rewrite Hc. run.
  by rewrite (bool_decide_false _ Hf).
Qed.

(** *** [get_preview_image] *)

Lemma get_preview_image_unknown_size request w :
  label_type_specs X !! requested_size request = None →
  get_preview_image X request w = (Raise (AttributeError no_msg_attribute), w).
Proof.
  intros H. unfold get_preview_image. by rewrite get_label_context_unknown.
Qed.

Lemma get_preview_image_turned_down request context w :
  get_label_context X request = Return context →
  file_name context ∉ scan (img_dir w) →
  get_preview_image X request w
  = (Return (Text "Image not in directory"), turned_down w).
Proof.
  intros Hc Hf. unfold get_preview_image. rewrite Hc. run.
  by rewrite (bool_decide_false _ Hf).
Qed.

Lemma get_preview_image_undecodable request context w content e :
  get_label_context X request = Return context →
  file_name context ∈ scan (img_dir w) →
  img_dir w !! file_name context = Some (RegularFile content) →
  decode X content = Raise e →
  get_preview_image X request w
  = (Raise e,
     with_event (ImageOpen (join IMG_DIR (file_name context)))
                (with_FILE_NAMES (scan (img_dir w)) w)).
Proof.
  intros Hc Hf Hl Him. unfold get_preview_image. rewrite Hc.
  found_in Hf. assert (content0 = content) as -> by congruence.
  by rewrite Him.
Qed.

Lemma get_preview_image_accepted request context w content im :
  get_label_context X request = Return context →
  file_name context ∈ scan (img_dir w) →
  img_dir w !! file_name context = Some (RegularFile content) →
  decode X content = Return im →
  get_preview_image X request w
  = let w1 := with_event (ImageOpen (join IMG_DIR (file_name context)))
                         (with_FILE_NAMES (scan (img_dir w)) w) in
    let png := image_to_png_bytes X (preview_transpose X context im) in
    if decide (default "png" (query request !! "return_format") = "base64")
    then (Return (Bytes (b64encode png)),
          with_headers (<["Content-type" := "text/plain"]> (headers w)) w1)
    else (Return (Bytes png),
          with_headers (<["Content-type" := "image/png"]> (headers w)) w1).
Proof.
  intros Hc Hf Hl Him. unfold get_preview_image. rewrite Hc.
  found_in Hf. assert (content0 = content) as -> by congruence.
  rewrite Him. run. by destruct (decide _).
Qed.

(** *** [delete_image] *)

Lemma delete_image_unknown_size request w :
  label_type_specs X !! requested_size request = None →
  delete_image X request w = (Raise (AttributeError no_msg_attribute), w).
Proof.
  intros H. unfold delete_image. by rewrite get_label_context_unknown.
Qed.

Lemma delete_image_turned_down request context w :
  get_label_context X request = Return context →
  file_name context ∉ scan (img_dir w) →
  delete_image X request w = (Return "Image not in directory", turned_down w).
Proof.
  intros Hc Hf. unfold delete_image. rewrite Hc. run.
  by rewrite (bool_decide_false _ Hf).
Qed.

Lemma delete_image_accepted request context w :
  get_label_context X request = Return context →
  file_name context ∈ scan (img_dir w) →
  delete_image X request w
  = (Raise (HTTPResponse "/labeldesigner"),
     let d := delete (file_name context) (img_dir w) in
     with_FILE_NAMES (scan d)
       (with_img_dir d
          (with_event (OsRemove (IMG_DIR +:+ file_name context))
                      (with_FILE_NAMES (scan (img_dir w)) w)))).
Proof.
  intros Hc Hf. unfold delete_image. rewrite Hc.
  found_in Hf. rewrite strip_prefix_app, Hd. by run.
Qed.

(** *** What [print_image] answers *)

(** A dictionary that [print_image] returns has [success] true, or
    [success] false and a [message]. *)
Lemma print_image_returns request w (d : gmap string Val) :
  (print_image X request w).1 = Return d →
  d !! "success" = Some (VBool true)
  ∨ (d !! "success" = Some (VBool false)
     ∧ ∃ message, d !! "message" = Some (VStr message)).
Proof.
  destruct (get_label_context X request) as [context|e] eqn:Hc.
  - destruct (decide (file_name context ∈ scan (img_dir w))) as [Hf|Hf].
    + unfold print_image. rewrite Hc. found_in Hf.
      destruct (decode X content) as [im|e]; run; [|done].
      destruct (raster_new X _) as [[]|e]; run; [|done].
      destruct (rotate_binding context) as [rotate|]; run; [|done].
      destruct (raster_create_label X _ _ _ _ _) as [data|e]; run; [|done].
      explore; intros [= <-];
        first [ left; by simplify_map_eq
              | right; split; [by simplify_map_eq | eexists; by simplify_map_eq] ].
    + rewrite (print_image_turned_down request context w Hc Hf).
      intros [= <-]. right. split; [done|]. by eexists.
  - destruct (get_label_context_Raise request e Hc) as [_ Hs].
    by rewrite (print_image_unknown_size request w Hs).
Qed.

(** An exception raised while the backend is built, written to or
    disposed of is caught, and the answer carries its [str()]. *)
Lemma print_image_transport_failure request context w content im rotate data e :
  DEBUG w = false →
  get_label_context X request = Return context →
  file_name context ∈ scan (img_dir w) →
  img_dir w !! file_name context = Some (RegularFile content) →
  decode X content = Return im →
  raster_new X (PRINTER_MODEL (CONFIG w)) = Return () →
  rotate_binding context = Some rotate →
  raster_create_label X (PRINTER_MODEL (CONFIG w)) im
                      (label_size context) true rotate = Return data →
  backend_new X (PRINTER_PRINTER (CONFIG w)) = Raise e
  ∨ (backend_new X (PRINTER_PRINTER (CONFIG w)) = Return ()
     ∧ backend_write X (PRINTER_PRINTER (CONFIG w)) data = Raise e)
  ∨ (backend_new X (PRINTER_PRINTER (CONFIG w)) = Return ()
     ∧ backend_write X (PRINTER_PRINTER (CONFIG w)) data = Return ()
     ∧ backend_dispose X (PRINTER_PRINTER (CONFIG w)) = Raise e) →
  (print_image X request w).1
  = Return (<["message" := VStr (str_exc e)]> {[ "success" := VBool false ]}).
Proof.
  intros Hdebug Hc Hf Hl Him Hr Hrot Hdata Hbe.
  unfold print_image. rewrite Hc. found_in Hf.
  assert (content0 = content) as -> by congruence.
  rewrite Him. run. rewrite Hr. run. rewrite Hrot. run.
  rewrite Hdata. run. rewrite Hdebug. run.
  destruct Hbe as [Hn|[[Hn Hw]|(Hn & Hw & Hdis)]]; rewrite Hn; run;
    [done | |]; rewrite Hw; run; [done|]. by rewrite Hdis.
Qed.

(** When the transport accepts the buffer, or is left alone in debug
    mode, the answer has [success] true. *)
Lemma print_image_completes request context w content im rotate data :
  get_label_context X request = Return context →
  file_name context ∈ scan (img_dir w) →
  img_dir w !! file_name context = Some (RegularFile content) →
  decode X content = Return im →
  raster_new X (PRINTER_MODEL (CONFIG w)) = Return () →
  rotate_binding context = Some rotate →
  raster_create_label X (PRINTER_MODEL (CONFIG w)) im
                      (label_size context) true rotate = Return data →
  DEBUG w = true
  ∨ (backend_new X (PRINTER_PRINTER (CONFIG w)) = Return ()
     ∧ backend_write X (PRINTER_PRINTER (CONFIG w)) data = Return ()
     ∧ backend_dispose X (PRINTER_PRINTER (CONFIG w)) = Return ()) →
  ∃ d, (print_image X request w).1 = Return d
       ∧ d !! "success" = Some (VBool true).
Proof.
  intros Hc Hf Hl Him Hr Hrot Hdata Hsent.
  unfold print_image. rewrite Hc. found_in Hf.
  assert (content0 = content) as -> by congruence.
  rewrite Him. run. rewrite Hr. run. rewrite Hrot. run.
  rewrite Hdata. run.
  destruct (DEBUG w) eqn:Hdebug; run.
  - eexists. split; [done|]. by simplify_map_eq.
  - destruct Hsent as [?|(Hn & Hw & Hdis)]; [done|].
    rewrite Hn. run. rewrite Hw. run. rewrite Hdis. run.
    eexists. split; [done|]. by simplify_map_eq.
Qed.

End Run.

(* ===================================================================== *)
(** ** The model on the sample installation                              *)
(* ===================================================================== *)

Example splitext_examples :
  splitext "a.b.png" = ("a.b", ".png")
  ∧ splitext ".bashrc" = (".bashrc", "")
  ∧ splitext "x.PNG" = ("x", ".PNG")
  ∧ splitext "dir.d/file" = ("dir.d/file", "").
Proof. by repeat split. Qed.

Example b64encode_examples :
  b64encode (list_byte_of_string "Man") = list_byte_of_string "TWFu"
  ∧ b64encode (list_byte_of_string "Ma") = list_byte_of_string "TWE="
  ∧ b64encode (list_byte_of_string "M") = list_byte_of_string "TQ=="
  ∧ b64decode (list_byte_of_string "TQ==") = Some (list_byte_of_string "M").
Proof. by repeat split. Qed.

Example str_bytes_example :
  str_bytes [x1b; x40; x00; x61; x0a; xff] = "b'\x1b@\x00a\n\xff'".
Proof. reflexivity. Qed.

Example scan_sample : scan Sample.dir = ["image.png"; "logo.jpg"].
Proof. by vm_compute. Qed.

Example print_sample :
  let request := Sample.request [("file_name", "image.png")] in
  (print_image Sample.X request (Sample.world false)).1
  = Return {[ "success" := VBool true ]}
  ∧ trace (print_image Sample.X request (Sample.world false)).2
    = [ImageOpen "./img/image.png"; RasterNew "QL-500";
       CreateLabel "62" true (RotateDeg 0);
       BackendNew "file:///dev/usb/lp0";
       BackendWrite (list_byte_of_string "dPNG1"); BackendDispose]
  ∧ (print_image Sample.X request (Sample.world true)).1
    = Return {[ "success" := VBool true; "data" := VStr "b'dPNG1'" ]}
  ∧ (print_image Sample.X_offline request (Sample.world false)).1
    = Return {[ "success" := VBool false; "message" := VStr "Device not found" ]}.
Proof. by vm_compute. Qed.

Example delete_sample :
  let request := Sample.request [("file_name", "image.png")] in
  let w' := (delete_image Sample.X request (Sample.world false)).2 in
  FILE_NAMES w' = ["logo.jpg"] ∧ img_dir w' !! "image.png" = None.
Proof. by vm_compute. Qed.

Example upload_sample :
  let w' := (do_upload Sample.X (Sample.upload_request "new.bmp")
                       (Sample.world false)).2 in
  FILE_NAMES w' = ["image.png"; "new.bmp"; "logo.jpg"]
  ∧ trace w' = [UploadSave "./img/new.bmp"].
Proof. by vm_compute. Qed.

(* ===================================================================== *)
(** ** The properties of the handlers                                    *)
(* ===================================================================== *)

(** The [rotate] arguments that [print_image] hands to [create_label] are
    what the binding of its local [rotate] gives, and there is one such
    call when the image opens, the raster object is built and [rotate]
    is bound. *)
Lemma print_image_rotations (X : Extern) (request : Request)
    (context : Context) (w : World) :
  get_label_context X request = Return context →
  file_name context ∈ scan (img_dir w) →
  ∃ evs, calls w (print_image X request w).2 evs
    ∧ (∀ rotate, rotate ∈ rotations evs → rotate_binding context = Some rotate)
    ∧ (is_Some (rotate_binding context) →
       ∀ content im,
         img_dir w !! file_name context = Some (RegularFile content) →
         decode X content = Return im →
         raster_new X (PRINTER_MODEL (CONFIG w)) = Return () →
         length (rotations evs) = 1).
Proof.
  intros Hc Hf. unfold print_image. rewrite Hc.
  found_in Hf.
  destruct (decode X content) as [im|e] eqn:Him; run;
    [|have_calls; cbn; leaf].
  destruct (raster_new X _) as [[]|e] eqn:Hr; run;
    [|have_calls; cbn; leaf].
  destruct (rotate_binding context) as [rotate|] eqn:Hrot; run.
  2:{ have_calls. cbn. leaf.
      match goal with H : is_Some None |- _ => by destruct H end. }
  explore; have_calls; cbn;
    (split; [by intros rotate' ->%list_elem_of_singleton | done]).
Qed.

(** C1.  For a print request whose label context is parsed and whose image
    is in the store, every [rotate] that [create_label] receives is 0 for
    an endless label with orientation [standard], 90 for an endless label
    with any other orientation, and ['auto'] for a die-cut or round
    die-cut label whatever the orientation; and when the image opens and
    the raster object is built, [create_label] is called, once. *)
Theorem print_rotation_directive (X : Extern) (request : Request)
    (context : Context) (w : World) :
  get_label_context X request = Return context →
  file_name context ∈ scan (img_dir w) →
  ∃ evs, calls w (print_image X request w).2 evs
    ∧ (kind context = ENDLESS_LABEL → orientation context = "standard" →
       ∀ rotate, rotate ∈ rotations evs → rotate = RotateDeg 0)
    ∧ (kind context = ENDLESS_LABEL → orientation context ≠ "standard" →
       ∀ rotate, rotate ∈ rotations evs → rotate = RotateDeg 90)
    ∧ (kind context = DIE_CUT_LABEL ∨ kind context = ROUND_DIE_CUT_LABEL →
       ∀ rotate, rotate ∈ rotations evs → rotate = RotateAuto)
    ∧ (kind context ∈ [ENDLESS_LABEL; DIE_CUT_LABEL; ROUND_DIE_CUT_LABEL] →
       ∀ content im,
         img_dir w !! file_name context = Some (RegularFile content) →
         decode X content = Return im →
         raster_new X (PRINTER_MODEL (CONFIG w)) = Return () →
         length (rotations evs) = 1).
Proof.
  intros Hc Hf.
  destruct (print_image_rotations X request context w Hc Hf)
    as (evs & Hcalls & Hall & Hone).
  exists evs. split; [done|].
  split; [|split; [|split]].
  - intros Hk Ho rotate Hin. apply Hall in Hin.
    rewrite rotate_binding_endless_standard in Hin by done. congruence.
  - intros Hk Ho rotate Hin. apply Hall in Hin.
    rewrite rotate_binding_endless_other in Hin by done. congruence.
  - intros Hk rotate Hin. apply Hall in Hin.
    rewrite rotate_binding_die_cut in Hin by done. congruence.
  - intros Hk. apply Hone. by apply rotate_binding_is_Some.
Qed.

Lemma print_rotation_directive_witness :
  let request := Sample.request [("file_name", "logo.jpg"); ("orientation", "rotated")] in
  let context := Sample.context "logo.jpg" "62" ENDLESS_LABEL "rotated" in
  let w := Sample.world false in
  ∃ evs, calls w (print_image Sample.X request w).2 evs
    ∧ (kind context = ENDLESS_LABEL → orientation context = "standard" →
       ∀ rotate, rotate ∈ rotations evs → rotate = RotateDeg 0)
    ∧ (kind context = ENDLESS_LABEL → orientation context ≠ "standard" →
       ∀ rotate, rotate ∈ rotations evs → rotate = RotateDeg 90)
    ∧ (kind context = DIE_CUT_LABEL ∨ kind context = ROUND_DIE_CUT_LABEL →
       ∀ rotate, rotate ∈ rotations evs → rotate = RotateAuto)
    ∧ (kind context ∈ [ENDLESS_LABEL; DIE_CUT_LABEL; ROUND_DIE_CUT_LABEL] →
       ∀ content im,
         img_dir w !! file_name context = Some (RegularFile content) →
         decode Sample.X content = Return im →
         raster_new Sample.X (PRINTER_MODEL (CONFIG w)) = Return () →
         length (rotations evs) = 1).
Proof.
  intros request context w.
  apply (print_rotation_directive Sample.X request context w).
  - reflexivity.
  - vm_compute. apply list_elem_of_further, list_elem_of_here.
Defined.

(** C2, as the code has it.  For a print request that names a file outside
    the image store, the backend class is not instantiated and nothing is
    written to it; and when the label size of the request is in the
    catalog, the handler returns a dictionary with [success] false and a
    non-empty [message]. *)
Theorem print_missing_image (X : Extern) (request : Request) (w : World) :
  requested_file request ∉ scan (img_dir w) →
  (∃ evs, calls w (print_image X request w).2 evs
          ∧ Forall (λ ev, is_backend_event ev = false) evs)
  ∧ (is_Some (label_type_specs X !! requested_size request) →
     ∃ d, (print_image X request w).1 = Return d
          ∧ d !! "success" = Some (VBool false)
          ∧ ∃ message, d !! "message" = Some (VStr message) ∧ message ≠ "").
Proof.
  intros Hf. split.
  - destruct (label_type_specs X !! requested_size request) as [spec|] eqn:Hs.
    + destruct (get_label_context_known X request) as (context & Hc & Hn);
        [by eexists|].
      rewrite <- Hn in Hf.
      rewrite (print_image_turned_down X request context w Hc Hf).
      have_calls. by repeat constructor.
    + rewrite (print_image_unknown_size X request w Hs).
      have_calls. constructor.
  - intros Hs.
    destruct (get_label_context_known X request Hs) as (context & Hc & Hn).
    rewrite <- Hn in Hf.
    rewrite (print_image_turned_down X request context w Hc Hf).
    eexists. split; [done|]. split; [done|].
    by exists "Image not in directory".
Qed.

Lemma print_missing_image_witness :
  let request := Sample.request [("file_name", "missing.png")] in
  let w := Sample.world false in
  (∃ evs, calls w (print_image Sample.X request w).2 evs
          ∧ Forall (λ ev, is_backend_event ev = false) evs)
  ∧ (is_Some (label_type_specs Sample.X !! requested_size request) →
     ∃ d, (print_image Sample.X request w).1 = Return d
          ∧ d !! "success" = Some (VBool false)
          ∧ ∃ message, d !! "message" = Some (VStr message) ∧ message ≠ "").
Proof.
  intros request w.
  apply (print_missing_image Sample.X request w).
  vm_compute. intros Hin.
  repeat (apply elem_of_cons in Hin as [Hin|Hin]; [discriminate Hin|]).
  by apply elem_of_nil in Hin.
Defined.

(** C2, as the claim has it, fails: a request that names a file outside
    the store and a label size outside the catalog leaves the handler by
    an exception, so no dictionary is returned. *)
Lemma print_missing_image_unknown_size :
  let request :=
    Sample.request [("file_name", "missing.png"); ("label_size", "nope")] in
  let w := Sample.world false in
  (requested_file request ∉ scan (img_dir w))
  ∧ (print_image Sample.X request w).1 = Raise (AttributeError no_msg_attribute)
  ∧ ¬ (∃ d, (print_image Sample.X request w).1 = Return d
            ∧ d !! "success" = Some (VBool false)
            ∧ ∃ message, d !! "message" = Some (VStr message) ∧ message ≠ "").
Proof.
  intros request w. split; [|split].
  - vm_compute. intros Hin.
    repeat (apply elem_of_cons in Hin as [Hin|Hin]; [discriminate Hin|]).
    by apply elem_of_nil in Hin.
  - reflexivity.
  - intros (d & Hd & _). vm_compute in Hd. discriminate Hd.
Qed.

(** C3, as the code has it.  In debug mode no print request constructs
    the backend or writes to it; and a request whose image is encoded
    (the context is parsed, the image is in the store and opens, the raster
    object is built, [rotate] is bound and [create_label] leaves the
    buffer [data]) is answered by a dictionary with [success] true and
    [data] holding [str(data)]. *)
Theorem print_debug (X : Extern) (request : Request) (w : World) :
  DEBUG w = true →
  (∃ evs, calls w (print_image X request w).2 evs
          ∧ Forall (λ ev, is_backend_event ev = false) evs)
  ∧ ∀ context content im rotate data,
      get_label_context X request = Return context →
      file_name context ∈ scan (img_dir w) →
      img_dir w !! file_name context = Some (RegularFile content) →
      decode X content = Return im →
      raster_new X (PRINTER_MODEL (CONFIG w)) = Return () →
      rotate_binding context = Some rotate →
      raster_create_label X (PRINTER_MODEL (CONFIG w)) im
                          (label_size context) true rotate = Return data →
      ∃ d, (print_image X request w).1 = Return d
           ∧ d !! "success" = Some (VBool true)
           ∧ d !! "data" = Some (VStr (str_bytes data)).
Proof.
  intros Hdebug. split.
  - destruct (get_label_context X request) as [context|e] eqn:Hc.
    + destruct (decide (file_name context ∈ scan (img_dir w))) as [Hf|Hf].
      * unfold print_image. rewrite Hc. found_in Hf.
        destruct (decode X content) as [im|e]; run;
          [|have_calls; by repeat constructor].
        destruct (raster_new X _) as [[]|e]; run;
          [|have_calls; by repeat constructor].
        destruct (rotate_binding context) as [rotate|]; run;
          [|have_calls; by repeat constructor].
        destruct (raster_create_label X _ _ _ _ _) as [data|e]; run;
          [|have_calls; by repeat constructor].
        rewrite Hdebug. run. have_calls. by repeat constructor.
      * rewrite (print_image_turned_down X request context w Hc Hf).
        have_calls. by repeat constructor.
    + destruct (get_label_context_Raise X request e Hc) as [_ Hs].
      rewrite (print_image_unknown_size X request w Hs).
      have_calls. constructor.
  - intros context content im rotate data Hc Hf Hl Him Hr Hrot Hdata.
    unfold print_image. rewrite Hc. found_in Hf.
    assert (content0 = content) as -> by congruence.
    rewrite Him. run. rewrite Hr. run. rewrite Hrot. run.
    rewrite Hdata. run. rewrite Hdebug. run.
    eexists. split; [done|]. split; [|by rewrite lookup_insert_eq].
    rewrite lookup_insert_ne by done. by rewrite lookup_insert_eq.
Qed.

Lemma print_debug_witness :
  let request := Sample.request [("file_name", "image.png"); ("label_size", "29x90")] in
  let w := Sample.world true in
  (∃ evs, calls w (print_image Sample.X request w).2 evs
          ∧ Forall (λ ev, is_backend_event ev = false) evs)
  ∧ ∀ context content im rotate data,
      get_label_context Sample.X request = Return context →
      file_name context ∈ scan (img_dir w) →
      img_dir w !! file_name context = Some (RegularFile content) →
      decode Sample.X content = Return im →
      raster_new Sample.X (PRINTER_MODEL (CONFIG w)) = Return () →
      rotate_binding context = Some rotate →
      raster_create_label Sample.X (PRINTER_MODEL (CONFIG w)) im
                          (label_size context) true rotate = Return data →
      ∃ d, (print_image Sample.X request w).1 = Return d
           ∧ d !! "success" = Some (VBool true)
           ∧ d !! "data" = Some (VStr (str_bytes data)).
Proof.
  intros request w.
  apply (print_debug Sample.X request w). reflexivity.
Defined.

(** C3, as the claim has it, fails: in debug mode a request for a file
    outside the store is answered with [success] false and no [data]. *)
Lemma print_debug_missing_image :
  let request := Sample.request [("file_name", "missing.png")] in
  let w := Sample.world true in
  DEBUG w = true
  ∧ (∃ d, (print_image Sample.X request w).1 = Return d
          ∧ d !! "success" = Some (VBool false)
          ∧ d !! "data" = None)
  ∧ ¬ (∃ d data, (print_image Sample.X request w).1 = Return d
                 ∧ d !! "success" = Some (VBool true)
                 ∧ d !! "data" = Some (VStr data)).
Proof.
  intros request w. split; [done|]. split.
  - eexists. split; [vm_compute; reflexivity|]. by vm_compute.
  - intros (d & data & Hd & Hs & _). vm_compute in Hd.
    injection Hd as <-. vm_compute in Hs. discriminate Hs.
Qed.

(** C4, where the code departs from it.  When the label size is not in
    the catalog, context parsing raises a [LookupError], and the handler
    of [print_image] does not return a dictionary: reading [e.msg] raises
    [AttributeError], which leaves the handler, the world unchanged. *)
Theorem print_lookup_error_escapes (X : Extern) (request : Request) (w : World) :
  label_type_specs X !! requested_size request = None →
  (∃ e, get_label_context X request = Raise e ∧ is_LookupError e = true)
  ∧ print_image X request w = (Raise (AttributeError no_msg_attribute), w)
  ∧ ¬ (∃ d, (print_image X request w).1 = Return d).
Proof.
  intros Hs. split; [|split].
  - eexists. split; [by apply get_label_context_unknown | done].
  - by apply print_image_unknown_size.
  - rewrite print_image_unknown_size by done. by intros [d ?].
Qed.

Lemma print_lookup_error_escapes_witness :
  let request := Sample.request [("file_name", "image.png"); ("label_size", "nope")] in
  let w := Sample.world false in
  (∃ e, get_label_context Sample.X request = Raise e ∧ is_LookupError e = true)
  ∧ print_image Sample.X request w = (Raise (AttributeError no_msg_attribute), w)
  ∧ ¬ (∃ d, (print_image Sample.X request w).1 = Return d).
Proof.
  intros request w.
  apply (print_lookup_error_escapes Sample.X request w). reflexivity.
Defined.

(** C5, where the code departs from it.  When the label size is not in
    the catalog, context parsing raises a [LookupError], and neither the
    preview nor the delete handler returns a message: reading [e.msg]
    raises [AttributeError], which leaves the handler. *)
Theorem preview_delete_lookup_error_escapes (X : Extern) (request : Request)
    (w : World) :
  label_type_specs X !! requested_size request = None →
  (∃ e, get_label_context X request = Raise e ∧ is_LookupError e = true)
  ∧ get_preview_image X request w = (Raise (AttributeError no_msg_attribute), w)
  ∧ delete_image X request w = (Raise (AttributeError no_msg_attribute), w).
Proof.
  intros Hs. split; [|split].
  - eexists. split; [by apply get_label_context_unknown | done].
  - by apply get_preview_image_unknown_size.
  - by apply delete_image_unknown_size.
Qed.

Lemma preview_delete_lookup_error_escapes_witness :
  let request := Sample.request [("file_name", "image.png"); ("label_size", "nope")] in
  let w := Sample.world false in
  (∃ e, get_label_context Sample.X request = Raise e ∧ is_LookupError e = true)
  ∧ get_preview_image Sample.X request w
    = (Raise (AttributeError no_msg_attribute), w)
  ∧ delete_image Sample.X request w = (Raise (AttributeError no_msg_attribute), w).
Proof.
  intros request w.
  apply (preview_delete_lookup_error_escapes Sample.X request w). reflexivity.
Defined.




(** C7.  Two preview requests with the same label parameters, one asking
    for [base64] and one for any other format: when the second is
    answered with the bytes [png], the first is answered with a valid
    base64 text that decodes to [png]. *)
Theorem preview_base64_decodes (X : Extern) (r_base64 r_png : Request)
    (w w_png : World) (png : bytes) :
  same_label_parameters r_base64 r_png →
  query r_base64 !! "return_format" = Some "base64" →
  default "png" (query r_png !! "return_format") ≠ "base64" →
  get_preview_image X r_png w = (Return (Bytes png), w_png) →
  ∃ text w_base64,
    get_preview_image X r_base64 w = (Return (Bytes text), w_base64)
    ∧ valid text = true
    ∧ b64decode text = Some png.
Proof.
  intros Hsame H64 Hpng Hrun.
  pose proof (get_label_context_same X _ _ Hsame) as Heq.
  destruct (get_label_context X r_png) as [context|e] eqn:Hc.
  - destruct (decide (file_name context ∈ scan (img_dir w))) as [Hf|Hf].
    + destruct (lookup_path_scan _ _ Hf) as (content & _ & Hl).
      destruct (decode X content) as [im|e] eqn:Him.
      * rewrite (get_preview_image_accepted X r_png context w content im)
          in Hrun by done.
        rewrite (get_preview_image_accepted X r_base64 context w content im)
          by done.
        cbv zeta in *. rewrite decide_False in Hrun by done.
        rewrite H64.
        change (default "png" (Some "base64")) with "base64".
        rewrite decide_True by done.
        injection Hrun as <- _.
        do 2 eexists. split; [done|].
        split; [apply Base64Facts.valid_b64encode
               | apply Base64Facts.b64decode_b64encode].
      * by rewrite (get_preview_image_undecodable X r_png context w content e)
          in Hrun.
    + by rewrite (get_preview_image_turned_down X r_png context w) in Hrun.
  - destruct (get_label_context_Raise X r_png e Hc) as [_ Hs].
    by rewrite (get_preview_image_unknown_size X r_png w) in Hrun.
Qed.

Lemma preview_base64_decodes_witness :
  let r_base64 :=
    Sample.request [("file_name", "image.png"); ("return_format", "base64")] in
  let r_png := Sample.request [("file_name", "image.png")] in
  let w := Sample.world false in
  ∃ text w_base64,
    get_preview_image Sample.X r_base64 w = (Return (Bytes text), w_base64)
    ∧ valid text = true
    ∧ b64decode text = Some (list_byte_of_string "PNG1").
Proof.
  intros r_base64 r_png w.
  eapply (preview_base64_decodes Sample.X r_base64 r_png w).
  - intros k Hk.
    repeat (apply elem_of_cons in Hk as [->|Hk]; [reflexivity|]).
    by apply elem_of_nil in Hk.
  - reflexivity.
  - vm_compute. discriminate.
  - vm_compute. reflexivity.
Defined.

(** A request that is turned down made no call but the line in the log. *)
Lemma turned_down_calls (w : World) (evs : list Event) :
  calls w (turned_down w) evs →
  evs = [LoggerWarning "Exception happened: Image not in directory"].
Proof. unfold calls, turned_down. run. intros H. by apply app_inv_head in H. Qed.

(** C8.  For a preview, delete or print request whose context is parsed:
    the scan of the request holds only regular files of the directory
    with an extension of the allow-list; a handler that acts (makes a call
    other than a line in the log) was given a file name of that scan, and
    a handler given a name of the scan does act, first on that file; and
    a request whose file name is not in the scan is answered with the
    missing-image error, with nothing done but the refresh of the list
    and the warning. *)
Theorem accepted_image_is_scanned (X : Extern) (request : Request)
    (context : Context) (w : World) :
  get_label_context X request = Return context →
  (∀ f, f ∈ scan (img_dir w) →
        (∃ content, img_dir w !! f = Some (RegularFile content))
        ∧ (splitext f).2 ∈ IMAGE_EXTENSIONS)
  ∧ (∀ evs,
       calls w (get_preview_image X request w).2 evs
       ∨ calls w (delete_image X request w).2 evs
       ∨ calls w (print_image X request w).2 evs →
       Exists (λ ev, is_action ev = true) evs →
       file_name context ∈ scan (img_dir w))
  ∧ (file_name context ∈ scan (img_dir w) →
     (∃ evs, calls w (get_preview_image X request w).2
                   (ImageOpen (join IMG_DIR (file_name context)) :: evs))
     ∧ (∃ evs, calls w (delete_image X request w).2
                     (OsRemove (IMG_DIR +:+ file_name context) :: evs))
     ∧ (∃ evs, calls w (print_image X request w).2
                     (ImageOpen (join IMG_DIR (file_name context)) :: evs)))
  ∧ (file_name context ∉ scan (img_dir w) →
     get_preview_image X request w
     = (Return (Text "Image not in directory"), turned_down w)
     ∧ delete_image X request w
       = (Return "Image not in directory", turned_down w)
     ∧ print_image X request w
       = (Return (<["message" := VStr "Image not in directory"]>
                    {[ "success" := VBool false ]}),
          turned_down w)).
Proof.
  intros Hc.
  assert (Hdown : file_name context ∉ scan (img_dir w) →
     get_preview_image X request w
     = (Return (Text "Image not in directory"), turned_down w)
     ∧ delete_image X request w
       = (Return "Image not in directory", turned_down w)
     ∧ print_image X request w
       = (Return (<["message" := VStr "Image not in directory"]>
                    {[ "success" := VBool false ]}),
          turned_down w)).
  { intros Hf. split; [|split].
    - apply (get_preview_image_turned_down X request context w Hc Hf).
    - apply (delete_image_turned_down X request context w Hc Hf).
    - apply (print_image_turned_down X request context w Hc Hf). }
  split; [|split; [|split]]; [| | |done].
  - intros f Hf. apply elem_of_scan in Hf as [[_ Hfile] Hext]. done.
  - intros evs Hcalls Hact.
    destruct (decide (file_name context ∈ scan (img_dir w))) as [Hf|Hf]; [done|].
    exfalso. destruct (Hdown Hf) as (Hp & Hd & Hpr).
    rewrite Hp, Hd, Hpr in Hcalls. cbn [snd] in Hcalls.
    assert (evs = [LoggerWarning "Exception happened: Image not in directory"])
      as -> by (destruct Hcalls as [?|[?|?]]; by apply (turned_down_calls w)).
    apply Exists_cons in Hact as [Hact|Hact]; [done|].
    by apply Exists_nil in Hact.
  - intros Hf. split; [|split].
    + unfold get_preview_image. rewrite Hc. found_in Hf.
      destruct (decode X content) as [im|e]; run; [destruct (decide _)|];
        first_call.
    + rewrite (delete_image_accepted X request context w Hc Hf). first_call.
    + unfold print_image. rewrite Hc. found_in Hf.
      destruct (decode X content) as [im|e]; run; [|first_call].
      destruct (raster_new X _) as [[]|e]; run; [|first_call].
      destruct (rotate_binding context) as [rotate|]; run; [|first_call].
      explore; first_call.
Qed.

Lemma accepted_image_is_scanned_witness :
  let request := Sample.request [("file_name", "old.png")] in
  let context := Sample.context "old.png" "62" ENDLESS_LABEL "standard" in
  let w := Sample.world false in
  (∀ f, f ∈ scan (img_dir w) →
        (∃ content, img_dir w !! f = Some (RegularFile content))
        ∧ (splitext f).2 ∈ IMAGE_EXTENSIONS)
  ∧ (∀ evs,
       calls w (get_preview_image Sample.X request w).2 evs
       ∨ calls w (delete_image Sample.X request w).2 evs
       ∨ calls w (print_image Sample.X request w).2 evs →
       Exists (λ ev, is_action ev = true) evs →
       file_name context ∈ scan (img_dir w))
  ∧ (file_name context ∈ scan (img_dir w) →
     (∃ evs, calls w (get_preview_image Sample.X request w).2
                   (ImageOpen (join IMG_DIR (file_name context)) :: evs))
     ∧ (∃ evs, calls w (delete_image Sample.X request w).2
                     (OsRemove (IMG_DIR +:+ file_name context) :: evs))
     ∧ (∃ evs, calls w (print_image Sample.X request w).2
                     (ImageOpen (join IMG_DIR (file_name context)) :: evs)))
  ∧ (file_name context ∉ scan (img_dir w) →
     get_preview_image Sample.X request w
     = (Return (Text "Image not in directory"), turned_down w)
     ∧ delete_image Sample.X request w
       = (Return "Image not in directory", turned_down w)
     ∧ print_image Sample.X request w
       = (Return (<["message" := VStr "Image not in directory"]>
                    {[ "success" := VBool false ]}),
          turned_down w)).
Proof.
  intros request context w.
  apply (accepted_image_is_scanned Sample.X request context w). reflexivity.
Defined.

(** C9.  The local [rotate] of [print_image] is bound exactly when the
    label kind is endless, die-cut or round die-cut.  For a request whose
    parsed kind is none of the three it is unbound: [create_label] is
    never called, and when the handler reaches the use of [rotate] (the
    image is in the store and opens, the raster object is built) it
    leaves by [UnboundLocalError]. *)
Theorem rotate_unbound_outside_three_kinds (X : Extern) (request : Request)
    (context : Context) (w : World) :
  get_label_context X request = Return context →
  kind context ∉ [ENDLESS_LABEL; DIE_CUT_LABEL; ROUND_DIE_CUT_LABEL] →
  (∀ c, is_Some (rotate_binding c) ↔
        kind c ∈ [ENDLESS_LABEL; DIE_CUT_LABEL; ROUND_DIE_CUT_LABEL])
  ∧ rotate_binding context = None
  ∧ (∃ evs, calls w (print_image X request w).2 evs ∧ rotations evs = [])
  ∧ (∀ content im,
       file_name context ∈ scan (img_dir w) →
       img_dir w !! file_name context = Some (RegularFile content) →
       decode X content = Return im →
       raster_new X (PRINTER_MODEL (CONFIG w)) = Return () →
       print_image X request w
       = (Raise (UnboundLocalError "rotate"),
          with_event (RasterNew (PRINTER_MODEL (CONFIG w)))
            (with_event (ImageOpen (join IMG_DIR (file_name context)))
               (with_FILE_NAMES (scan (img_dir w)) w)))).
Proof.
  intros Hc Hk.
  assert (Hnone : rotate_binding context = None).
  { destruct (rotate_binding context) eqn:Hrot; [|done].
    exfalso. apply Hk, rotate_binding_is_Some. by rewrite Hrot. }
  split; [apply rotate_binding_is_Some|]. split; [done|]. split.
  - destruct (decide (file_name context ∈ scan (img_dir w))) as [Hf|Hf].
    + unfold print_image. rewrite Hc. found_in Hf. rewrite Hnone.
      destruct (decode X content) as [im|e]; run; [|by have_calls].
      destruct (raster_new X _) as [[]|e]; run; by have_calls.
    + rewrite (print_image_turned_down X request context w Hc Hf).
      by have_calls.
  - intros content im Hf Hl Him Hr.
    unfold print_image. rewrite Hc. found_in Hf.
    assert (content0 = content) as -> by congruence.
    rewrite Him. run. rewrite Hr. run. by rewrite Hnone.
Qed.

Lemma rotate_unbound_outside_three_kinds_witness :
  let request := Sample.request [("file_name", "image.png"); ("label_size", "pt12")] in
  let context := Sample.context "image.png" "pt12" (OtherKind 4) "standard" in
  let w := Sample.world false in
  (∀ c, is_Some (rotate_binding c) ↔
        kind c ∈ [ENDLESS_LABEL; DIE_CUT_LABEL; ROUND_DIE_CUT_LABEL])
  ∧ rotate_binding context = None
  ∧ (∃ evs, calls w (print_image Sample.X request w).2 evs ∧ rotations evs = [])
  ∧ (∀ content im,
       file_name context ∈ scan (img_dir w) →
       img_dir w !! file_name context = Some (RegularFile content) →
       decode Sample.X content = Return im →
       raster_new Sample.X (PRINTER_MODEL (CONFIG w)) = Return () →
       print_image Sample.X request w
       = (Raise (UnboundLocalError "rotate"),
          with_event (RasterNew (PRINTER_MODEL (CONFIG w)))
            (with_event (ImageOpen (join IMG_DIR (file_name context)))
               (with_FILE_NAMES (scan (img_dir w)) w)))).
Proof.
  intros request context w.
  apply (rotate_unbound_outside_three_kinds Sample.X request context w).
  - reflexivity.
  - intros Hin.
    repeat (apply elem_of_cons in Hin as [Hin|Hin]; [discriminate Hin|]).
    by apply elem_of_nil in Hin.
Defined.



(* ===================================================================== *)
(** ** Further properties: the image store                               *)
(* ===================================================================== *)


Lemma elem_of_scan_delete (d : gmap string Node) (name f : string) :
  f ∈ scan (delete name d) ↔ f ∈ scan d ∧ f ≠ name.
Proof.
  rewrite !elem_of_scan. split.
  - intros [[Hs [content Hc]] Hext].
    apply lookup_delete_Some in Hc as [Hne Hc]. eauto 10.
  - intros [[[Hs [content Hc]] Hext] Hne].
    split; [|done]. split; [done|]. exists content.
    by rewrite lookup_delete_ne.
Qed.


Lemma join_scan (d : gmap string Node) (name : string) :
  name ∈ scan d → join IMG_DIR name = IMG_DIR +:+ name.
Proof.
  intros [[Hs _] _]%elem_of_scan. by rewrite join_IMG_DIR, Hs.
Qed.

(** Settles [touch_listed_files_only] on an explicit list of calls. *)
Ltac listed Hf :=
  intros ev Hin;
  repeat (apply elem_of_cons in Hin as [->|Hin];
          [first [done | eexists; split; [exact Hf | by rewrite ?(join_scan _ _ Hf)]]|]);
  by apply elem_of_nil in Hin.

(** X1.  Whatever the request and the collaborators, the preview, delete
    and print handlers open or remove nothing but files of the scan of the
    image directory, at [IMG_DIR] followed by the name, and save nothing. *)
Theorem handlers_touch_listed_files_only (X : Extern) (request : Request)
    (w : World) :
  (∃ evs, calls w (get_preview_image X request w).2 evs
          ∧ touch_listed_files_only w evs)
  ∧ (∃ evs, calls w (delete_image X request w).2 evs
            ∧ touch_listed_files_only w evs)
  ∧ (∃ evs, calls w (print_image X request w).2 evs
            ∧ touch_listed_files_only w evs).
Proof.
  destruct (get_label_context X request) as [context|e] eqn:Hc.
  - destruct (decide (file_name context ∈ scan (img_dir w))) as [Hf|Hf].
    + split; [|split].
      * unfold get_preview_image. rewrite Hc. found_in Hf.
        destruct (decode X content) as [im|e]; run; [destruct (decide _)|];
          have_calls; listed Hf.
      * rewrite (delete_image_accepted X request context w Hc Hf).
        have_calls. listed Hf.
      * unfold print_image. rewrite Hc. found_in Hf.
        destruct (decode X content) as [im|e]; run; [|have_calls; listed Hf].
        destruct (raster_new X _) as [[]|e]; run; [|have_calls; listed Hf].
        destruct (rotate_binding context) as [rotate|]; run;
          [|have_calls; listed Hf].
        explore; have_calls; listed Hf.
    + rewrite (get_preview_image_turned_down X request context w Hc Hf).
      rewrite (delete_image_turned_down X request context w Hc Hf).
      rewrite (print_image_turned_down X request context w Hc Hf).
      repeat split; have_calls; listed Hf.
  - destruct (get_label_context_Raise X request e Hc) as [_ Hs].
    rewrite (get_preview_image_unknown_size X request w Hs).
    rewrite (delete_image_unknown_size X request w Hs).
    rewrite (print_image_unknown_size X request w Hs).
    repeat split; have_calls; by intros ev Hin%elem_of_nil.
Qed.

(** X2.  A preview and a print leave the image directory, [CONFIG] and
    [DEBUG] as they found them, whatever the request and whatever the
    collaborators answer. *)
Theorem preview_and_print_keep_directory (X : Extern) (request : Request)
    (w : World) :
  (img_dir (get_preview_image X request w).2 = img_dir w
   ∧ CONFIG (get_preview_image X request w).2 = CONFIG w
   ∧ DEBUG (get_preview_image X request w).2 = DEBUG w)
  ∧ (img_dir (print_image X request w).2 = img_dir w
     ∧ CONFIG (print_image X request w).2 = CONFIG w
     ∧ DEBUG (print_image X request w).2 = DEBUG w).
Proof.
  destruct (get_label_context X request) as [context|e] eqn:Hc.
  - destruct (decide (file_name context ∈ scan (img_dir w))) as [Hf|Hf].
    + split.
      * unfold get_preview_image. rewrite Hc. found_in Hf.
        by destruct (decode X content) as [im|e]; run; [destruct (decide _)|].
      * unfold print_image. rewrite Hc. found_in Hf.
        destruct (decode X content) as [im|e]; run; [|done].
        destruct (raster_new X _) as [[]|e]; run; [|done].
        destruct (rotate_binding context) as [rotate|]; run; [|done].
        by explore.
    + rewrite (get_preview_image_turned_down X request context w Hc Hf).
      by rewrite (print_image_turned_down X request context w Hc Hf).
  - destruct (get_label_context_Raise X request e Hc) as [_ Hs].
    rewrite (get_preview_image_unknown_size X request w Hs).
    by rewrite (print_image_unknown_size X request w Hs).
Qed.

(** X3.  An accepted delete removes the entry of the requested name and
    no other, and the list of names it leaves is the scan of before
    without that name. *)
Theorem delete_removes_exactly_one (X : Extern) (request : Request)
    (context : Context) (w : World) :
  get_label_context X request = Return context →
  file_name context ∈ scan (img_dir w) →
  (delete_image X request w).1 = Raise (HTTPResponse "/labeldesigner")
  ∧ img_dir (delete_image X request w).2
    = delete (file_name context) (img_dir w)
  ∧ (∀ f, f ≠ file_name context →
          img_dir (delete_image X request w).2 !! f = img_dir w !! f)
  ∧ (∀ f, f ∈ FILE_NAMES (delete_image X request w).2
          ↔ f ∈ scan (img_dir w) ∧ f ≠ file_name context).
Proof.
  intros Hc Hf.
  rewrite (delete_image_accepted X request context w Hc Hf). run.
  split; [done|]. split; [done|]. split.
  - intros f Hne. by rewrite lookup_delete_ne.
  - intros f. apply elem_of_scan_delete.
Qed.

Lemma delete_removes_exactly_one_witness :
  let request := Sample.request [("file_name", "logo.jpg")] in
  let context := Sample.context "logo.jpg" "62" ENDLESS_LABEL "standard" in
  let w := Sample.world false in
  (delete_image Sample.X request w).1 = Raise (HTTPResponse "/labeldesigner")
  ∧ img_dir (delete_image Sample.X request w).2
    = delete (file_name context) (img_dir w)
  ∧ (∀ f, f ≠ file_name context →
          img_dir (delete_image Sample.X request w).2 !! f = img_dir w !! f)
  ∧ (∀ f, f ∈ FILE_NAMES (delete_image Sample.X request w).2
          ↔ f ∈ scan (img_dir w) ∧ f ≠ file_name context).
Proof.
  intros request context w.
  apply (delete_removes_exactly_one Sample.X request context w).
  - reflexivity.
  - vm_compute. apply list_elem_of_further, list_elem_of_here.
Defined.

(** X4.  Once a file has been deleted, the same request is turned down
    by each of the three handlers: a second delete, a preview and a print
    all answer that the image is not in the directory. *)
Theorem deleted_image_is_gone (X : Extern) (request : Request)
    (context : Context) (w : World) :
  get_label_context X request = Return context →
  file_name context ∈ scan (img_dir w) →
  let w1 := (delete_image X request w).2 in
  (delete_image X request w1).1 = Return "Image not in directory"
  ∧ (get_preview_image X request w1).1 = Return (Text "Image not in directory")
  ∧ (print_image X request w1).1
    = Return (<["message" := VStr "Image not in directory"]>
                {[ "success" := VBool false ]})
  ∧ img_dir (delete_image X request w1).2 = img_dir w1.
Proof.
  intros Hc Hf w1.
  assert (Hgone : file_name context ∉ scan (img_dir w1)).
  { subst w1. rewrite (delete_image_accepted X request context w Hc Hf). run.
    rewrite elem_of_scan_delete. by intros [_ ?]. }
  rewrite (delete_image_turned_down X request context w1 Hc Hgone).
  rewrite (get_preview_image_turned_down X request context w1 Hc Hgone).
  by rewrite (print_image_turned_down X request context w1 Hc Hgone).
Qed.

Lemma deleted_image_is_gone_witness :
  let request := Sample.request [("file_name", "logo.jpg")] in
  let w := Sample.world false in
  let w1 := (delete_image Sample.X request w).2 in
  (delete_image Sample.X request w1).1 = Return "Image not in directory"
  ∧ (get_preview_image Sample.X request w1).1
    = Return (Text "Image not in directory")
  ∧ (print_image Sample.X request w1).1
    = Return (<["message" := VStr "Image not in directory"]>
                {[ "success" := VBool false ]})
  ∧ img_dir (delete_image Sample.X request w1).2 = img_dir w1.
Proof.
  intros request w.
  apply (deleted_image_is_gone Sample.X request
           (Sample.context "logo.jpg" "62" ENDLESS_LABEL "standard") w).
  - reflexivity.
  - vm_compute. apply list_elem_of_further, list_elem_of_here.
Defined.

(** X5.  Uploading a new file and deleting it again gives back the
    directory and the list of names of before, when the save writes the
    file under its name: after the upload the name is listed, after the
    delete the directory is the one of before and the list its scan. *)
Theorem upload_then_delete_restores (X : Extern) (r_upload r_delete : Request)
    (upload : FileUpload) (context : Context) (w : World) :
  files r_upload !! "upload" = Some upload →
  (splitext (filename upload)).2 ∈ IMAGE_EXTENSIONS →
  starts_with_slash (filename upload) = false →
  img_dir w !! filename upload = None →
  save_upload X upload (join IMG_DIR (filename upload)) (img_dir w)
  = Return (<[filename upload := RegularFile (upload_body upload)]> (img_dir w)) →
  get_label_context X r_delete = Return context →
  file_name context = filename upload →
  let w1 := (do_upload X r_upload w).2 in
  let w2 := (delete_image X r_delete w1).2 in
  filename upload ∈ FILE_NAMES w1
  ∧ (delete_image X r_delete w1).1 = Raise (HTTPResponse "/labeldesigner")
  ∧ img_dir w2 = img_dir w
  ∧ FILE_NAMES w2 = scan (img_dir w).
Proof.
  intros Hu Hext Hslash Hnew Hsave Hc Hname w1 w2.
  assert (Hw1 : w1 = with_FILE_NAMES
                       (scan (<[filename upload := RegularFile (upload_body upload)]>
                                (img_dir w)))
                       (with_img_dir
                          (<[filename upload := RegularFile (upload_body upload)]>
                             (img_dir w))
                          (with_event (UploadSave (join IMG_DIR (filename upload))) w))).
  { subst w1. unfold do_upload. rewrite Hu.
    rewrite decide_False by (by intros ?). run. by rewrite Hsave. }
  assert (Hlisted : filename upload
                    ∈ scan (<[filename upload := RegularFile (upload_body upload)]>
                              (img_dir w))).
  { apply elem_of_scan.
    split; [|done]. split; [done|]. eexists. apply lookup_insert_eq. }
  assert (Hin : file_name context ∈ scan (img_dir w1))
    by (by rewrite Hw1, Hname).
  split; [by rewrite Hw1|].
  subst w2. rewrite (delete_image_accepted X r_delete context w1 Hc Hin).
  rewrite Hw1, Hname. run.
  by rewrite delete_insert_id.
Qed.

Lemma upload_then_delete_restores_witness :
  let r_upload := Sample.upload_request "new.bmp" in
  let r_delete := Sample.request [("file_name", "new.bmp")] in
  let upload := Sample.upload "new.bmp" in
  let w := Sample.world false in
  let w1 := (do_upload Sample.X r_upload w).2 in
  let w2 := (delete_image Sample.X r_delete w1).2 in
  filename upload ∈ FILE_NAMES w1
  ∧ (delete_image Sample.X r_delete w1).1 = Raise (HTTPResponse "/labeldesigner")
  ∧ img_dir w2 = img_dir w
  ∧ FILE_NAMES w2 = scan (img_dir w).
Proof.
  intros r_upload r_delete upload w.
  apply (upload_then_delete_restores Sample.X r_upload r_delete upload
           (Sample.context "new.bmp" "62" ENDLESS_LABEL "standard") w).
  - reflexivity.
  - vm_compute. do 3 apply list_elem_of_further. apply list_elem_of_here.
  - reflexivity.
  - reflexivity.
  - reflexivity.
  - reflexivity.
  - reflexivity.
Defined.

(* ===================================================================== *)
(** ** Further properties: the transmission to the printer               *)
(* ===================================================================== *)

(** Runs [print_image] up to the encoded buffer. *)
Ltac encode_steps Henc :=
  let Hc := fresh "Hc" in
  let Hf := fresh "Hf" in
  let Hrot := fresh "Hrot" in
  let Hr := fresh "Hr" in
  let content' := fresh "content'" in
  let im := fresh "im" in
  let Hl := fresh "Hl" in
  let Him := fresh "Him" in
  let Hdata := fresh "Hdata" in
  destruct Henc as (Hc & Hf & Hrot & Hr & content' & im & Hl & Him & Hdata);
  unfold print_image; rewrite Hc; found_in Hf;
  match goal with
  | H : img_dir _ !! _ = Some (RegularFile ?c) |- context [decode _ ?c'] =>
      assert (c' = content') as -> by congruence
  end;
  rewrite Him; run; rewrite Hr; run; rewrite Hrot; run; rewrite Hdata; run.

(** X6.  Outside debug mode, when the buffer is encoded and the backend
    accepts every operation, [print_image] builds the backend for the
    configured printer, writes exactly the encoded buffer to it and
    disposes of it, in that order, and answers with [success] true and
    no other field. *)
Theorem print_transmits_encoded_buffer (X : Extern) (request : Request)
    (w : World) (context : Context) (rotate : Rotate) (data : bytes) :
  DEBUG w = false →
  encodes X request w context rotate data →
  backend_new X (PRINTER_PRINTER (CONFIG w)) = Return () →
  backend_write X (PRINTER_PRINTER (CONFIG w)) data = Return () →
  backend_dispose X (PRINTER_PRINTER (CONFIG w)) = Return () →
  (print_image X request w).1 = Return {[ "success" := VBool true ]}
  ∧ calls w (print_image X request w).2
          (encoding_calls w context rotate
             ++ [BackendNew (PRINTER_PRINTER (CONFIG w));
                 BackendWrite data;
                 BackendDispose]).
Proof.
  intros Hdebug Henc Hn Hw Hdis. encode_steps Henc.
  rewrite Hdebug. run. rewrite Hn. run. rewrite Hw. run. rewrite Hdis. run.
  split; [by vm_compute|].
  unfold calls. run. by rewrite <- !app_assoc.
Qed.

Lemma print_transmits_encoded_buffer_witness :
  let request := Sample.request [("file_name", "image.png")] in
  let context := Sample.context "image.png" "62" ENDLESS_LABEL "standard" in
  let w := Sample.world false in
  let data := list_byte_of_string "dPNG1" in
  (print_image Sample.X request w).1 = Return {[ "success" := VBool true ]}
  ∧ calls w (print_image Sample.X request w).2
          (encoding_calls w context (RotateDeg 0)
             ++ [BackendNew (PRINTER_PRINTER (CONFIG w));
                 BackendWrite data;
                 BackendDispose]).
Proof.
  intros request context w data.
  apply (print_transmits_encoded_buffer Sample.X request w context
           (RotateDeg 0) data); try reflexivity.
  split; [reflexivity|]. split; [vm_compute; apply list_elem_of_here|].
  split; [reflexivity|]. split; [reflexivity|].
  exists (list_byte_of_string "PNG1"), (list_byte_of_string "PNG1").
  by repeat split.
Defined.

(** X7.  When the write to the backend raises, the backend is not
    disposed of: the calls end with the failed write and the warning in
    the log, and the answer has [success] false and the text of the
    exception as [message]. *)
Theorem print_failed_write_skips_dispose (X : Extern) (request : Request)
    (w : World) (context : Context) (rotate : Rotate) (data : bytes) (e : Exc) :
  DEBUG w = false →
  encodes X request w context rotate data →
  backend_new X (PRINTER_PRINTER (CONFIG w)) = Return () →
  backend_write X (PRINTER_PRINTER (CONFIG w)) data = Raise e →
  (print_image X request w).1
  = Return (<["message" := VStr (str_exc e)]> {[ "success" := VBool false ]})
  ∧ ∃ evs, calls w (print_image X request w).2 evs
           ∧ evs = encoding_calls w context rotate
                     ++ [BackendNew (PRINTER_PRINTER (CONFIG w));
                         BackendWrite data;
                         LoggerWarning ("Exception happened: " +:+ str_exc e)]
           ∧ BackendDispose ∉ evs.
Proof.
  intros Hdebug Henc Hn Hw. encode_steps Henc.
  rewrite Hdebug. run. rewrite Hn. run. rewrite Hw. run.
  split; [done|]. eexists. split; [|split; [reflexivity|]].
  - unfold calls. run. by rewrite <- !app_assoc.
  - intros Hin. cbn in Hin.
    repeat (apply elem_of_cons in Hin as [Hin|Hin]; [discriminate Hin|]).
    by apply elem_of_nil in Hin.
Qed.

Lemma print_failed_write_skips_dispose_witness :
  let X := SampleBoot.X_write_fails in
  let request := Sample.request [("file_name", "image.png")] in
  let context := Sample.context "image.png" "62" ENDLESS_LABEL "standard" in
  let w := Sample.world false in
  let data := list_byte_of_string "dPNG1" in
  let e := LibraryError "Broken pipe" in
  (print_image X request w).1
  = Return (<["message" := VStr (str_exc e)]> {[ "success" := VBool false ]})
  ∧ ∃ evs, calls w (print_image X request w).2 evs
           ∧ evs = encoding_calls w context (RotateDeg 0)
                     ++ [BackendNew (PRINTER_PRINTER (CONFIG w));
                         BackendWrite data;
                         LoggerWarning ("Exception happened: " +:+ str_exc e)]
           ∧ BackendDispose ∉ evs.
Proof.
  intros X request context w data e.
  apply (print_failed_write_skips_dispose X request w context
           (RotateDeg 0) data e); try reflexivity.
  split; [reflexivity|]. split; [vm_compute; apply list_elem_of_here|].
  split; [reflexivity|]. split; [reflexivity|].
  exists (list_byte_of_string "PNG1"), (list_byte_of_string "PNG1").
  by repeat split.
Defined.

(** X8.  When disposing of the backend raises after the buffer has been
    written, the answer still has [success] false with the text of the
    exception: the label has gone to the printer and the request is
    reported as failed. *)
Theorem print_failed_dispose_reports_failure (X : Extern) (request : Request)
    (w : World) (context : Context) (rotate : Rotate) (data : bytes) (e : Exc) :
  DEBUG w = false →
  encodes X request w context rotate data →
  backend_new X (PRINTER_PRINTER (CONFIG w)) = Return () →
  backend_write X (PRINTER_PRINTER (CONFIG w)) data = Return () →
  backend_dispose X (PRINTER_PRINTER (CONFIG w)) = Raise e →
  (print_image X request w).1
  = Return (<["message" := VStr (str_exc e)]> {[ "success" := VBool false ]})
  ∧ ∃ evs, calls w (print_image X request w).2 evs
           ∧ BackendWrite data ∈ evs.
Proof.
  intros Hdebug Henc Hn Hw Hdis. encode_steps Henc.
  rewrite Hdebug. run. rewrite Hn. run. rewrite Hw. run. rewrite Hdis. run.
  split; [done|]. have_calls.
  do 4 apply list_elem_of_further. apply list_elem_of_here.
Qed.

Lemma print_failed_dispose_reports_failure_witness :
  let X := SampleBoot.X_dispose_fails in
  let request := Sample.request [("file_name", "image.png")] in
  let w := Sample.world false in
  let data := list_byte_of_string "dPNG1" in
  let e := LibraryError "Resource busy" in
  (print_image X request w).1
  = Return (<["message" := VStr (str_exc e)]> {[ "success" := VBool false ]})
  ∧ ∃ evs, calls w (print_image X request w).2 evs
           ∧ BackendWrite data ∈ evs.
Proof.
  intros X request w data e.
  apply (print_failed_dispose_reports_failure X request w
           (Sample.context "image.png" "62" ENDLESS_LABEL "standard")
           (RotateDeg 0) data e); try reflexivity.
  split; [reflexivity|]. split; [vm_compute; apply list_elem_of_here|].
  split; [reflexivity|]. split; [reflexivity|].
  exists (list_byte_of_string "PNG1"), (list_byte_of_string "PNG1").
  by repeat split.
Defined.

(** X9.  The answers of [print_image] have three shapes only: [success]
    true alone (outside debug mode), [success] true with [data] (in debug
    mode), and [success] false with a [message].  No answer carries an
    [error] field. *)
Theorem print_answer_shapes (X : Extern) (request : Request) (w : World)
    (d : gmap string Val) :
  (print_image X request w).1 = Return d →
  ((DEBUG w = false ∧ d = {[ "success" := VBool true ]})
   ∨ (DEBUG w = true
      ∧ ∃ data, d = <["data" := VStr (str_bytes data)]> {[ "success" := VBool true ]})
   ∨ (∃ message,
        d = <["message" := VStr message]> {[ "success" := VBool false ]}))
  ∧ d !! "error" = None.
Proof.
  intros Hd.
  assert (Hshape :
    (DEBUG w = false ∧ d = {[ "success" := VBool true ]})
    ∨ (DEBUG w = true
       ∧ ∃ data, d = <["data" := VStr (str_bytes data)]> {[ "success" := VBool true ]})
    ∨ (∃ message,
         d = <["message" := VStr message]> {[ "success" := VBool false ]})).
  { revert Hd.
    destruct (get_label_context X request) as [context|e] eqn:Hc.
    - destruct (decide (file_name context ∈ scan (img_dir w))) as [Hf|Hf].
      + unfold print_image. rewrite Hc. found_in Hf.
        destruct (decode X content) as [im|e]; run; [|done].
        destruct (raster_new X _) as [[]|e]; run; [|done].
        destruct (rotate_binding context) as [rotate|]; run; [|done].
        destruct (raster_create_label X _ _ _ _ _) as [data|e]; run; [|done].
        explore; intros [= <-];
          first [ left; split; [done|]; by rewrite insert_singleton
                | right; left; split; [done|]; eexists; by rewrite insert_singleton
                | right; right; by eexists ].
      + rewrite (print_image_turned_down X request context w Hc Hf).
        intros [= <-]. right. right. by eexists.
    - destruct (get_label_context_Raise X request e Hc) as [_ Hs].
      by rewrite (print_image_unknown_size X request w Hs). }
  split; [done|].
  destruct Hshape as [[_ ->]|[[_ [data ->]]|[message ->]]]; by simplify_map_eq.
Qed.

Lemma print_answer_shapes_witness :
  let request := Sample.request [("file_name", "image.png")] in
  let w := Sample.world true in
  let d : gmap string Val :=
    <["data" := VStr "b'dPNG1'"]> {[ "success" := VBool true ]} in
  ((DEBUG w = false ∧ d = {[ "success" := VBool true ]})
   ∨ (DEBUG w = true
      ∧ ∃ data, d = <["data" := VStr (str_bytes data)]> {[ "success" := VBool true ]})
   ∨ (∃ message,
        d = <["message" := VStr message]> {[ "success" := VBool false ]}))
  ∧ d !! "error" = None.
Proof.
  intros request w d.
  apply (print_answer_shapes Sample.X request w d).
  by vm_compute.
Defined.

(* ===================================================================== *)
(** ** Further properties: the start of the server                       *)
(* ===================================================================== *)

(** What a start that reaches [run] went through. *)
Lemma main_Serving (B : Boot) (args : Args) (config : Settings)
    (d : gmap string Node) (host : string) (port : Setting) (debug : bool)
    (backend : string) (config' : Settings) (w : World) :
  main B args config d = Serving host port debug backend config' w →
  guess_backend B (PRINTER_PRINTER (PRINTER config')) = Some backend
  ∧ backend_factory B backend = Return ()
  ∧ LABEL_DEFAULT_SIZE config' ∈ label_sizes B
  ∧ debug = setting_is (if truthy (arg_loglevel args) then arg_loglevel args
                        else SERVER_LOGLEVEL config) "DEBUG"
  ∧ w = {| CONFIG := PRINTER config'; DEBUG := debug; FILE_NAMES := scan d;
           img_dir := d; headers := ∅; trace := [] |}
  ∧ PRINTER_PRINTER (PRINTER config')
    = default (PRINTER_PRINTER (PRINTER config)) (given (arg_printer args))
  ∧ PRINTER_MODEL (PRINTER config')
    = default (PRINTER_MODEL (PRINTER config)) (given (arg_model args))
  ∧ LABEL_DEFAULT_SIZE config'
    = default (LABEL_DEFAULT_SIZE config) (given (arg_default_label_size args))
  ∧ port = match given (arg_port args) with
           | Some p => SStr p
           | None => SERVER_PORT config
           end.
Proof.
  unfold main.
  destruct (given (arg_printer args)), (given (arg_port args)),
    (given (arg_model args)), (given (arg_default_label_size args)),
    (given (arg_default_orientation args));
    cbn [with_PRINTER with_LABEL SERVER_HOST SERVER_PORT SERVER_LOGLEVEL
         PRINTER LABEL_DEFAULT_SIZE LABEL_DEFAULT_ORIENTATION WEBSITE
         PRINTER_MODEL PRINTER_PRINTER default from_option id];
    (destruct (basicConfig B _) as [[]|e]; [|done]);
    (destruct (guess_backend B _) as [selected|] eqn:Hg; [|done]);
    (destruct (backend_factory B selected) as [[]|e] eqn:Hf; [|done]);
    (destruct (decide (_ ∉ label_sizes B)) as [Hout|Hin]; [done|]);
    intros [= <- <- <- <- <- <-];
    (split; [exact Hg|]); (split; [exact Hf|]);
    (split; [by apply dec_stable|]); by repeat split.
Qed.

(** X10.  Debug mode after [main] is decided by the comparison of the
    log level with the text [DEBUG]: the level of the command line when it
    is true, the level of the configuration otherwise.  A level given on
    the command line as a number other than zero never turns debug mode
    on. *)
Theorem main_debug_mode (B : Boot) (args : Args) (config : Settings)
    (d : gmap string Node) (host : string) (port : Setting) (debug : bool)
    (backend : string) (config' : Settings) (w : World) :
  main B args config d = Serving host port debug backend config' w →
  DEBUG w = debug
  ∧ (truthy (arg_loglevel args) = true →
     debug = setting_is (arg_loglevel args) "DEBUG")
  ∧ (truthy (arg_loglevel args) = false →
     debug = setting_is (SERVER_LOGLEVEL config) "DEBUG")
  ∧ (∀ n, arg_loglevel args = SInt n → n ≠ 0%Z → debug = false).
Proof.
  intros Hmain.
  destruct (main_Serving _ _ _ _ _ _ _ _ _ _ Hmain)
    as (_ & _ & _ & Hdebug & -> & _).
  split; [done|]. split; [|split].
  - intros Ht. by rewrite Ht in Hdebug.
  - intros Ht. by rewrite Ht in Hdebug.
  - intros n Hn Hne. rewrite Hn in Hdebug. cbn in Hdebug.
    destruct (n =? 0)%Z eqn:Hz; [lia|]. by rewrite Hdebug.
Qed.

Lemma main_debug_mode_witness :
  let w := {| CONFIG := PRINTER SampleBoot.config; DEBUG := false;
              FILE_NAMES := scan Sample.dir; img_dir := Sample.dir;
              headers := ∅; trace := [] |} in
  let args := SampleBoot.loglevel_debug in
  let config := SampleBoot.config in
  let debug := false in
  DEBUG w = debug
  ∧ (truthy (arg_loglevel args) = true →
     debug = setting_is (arg_loglevel args) "DEBUG")
  ∧ (truthy (arg_loglevel args) = false →
     debug = setting_is (SERVER_LOGLEVEL config) "DEBUG")
  ∧ (∀ n, arg_loglevel args = SInt n → n ≠ 0%Z → debug = false).
Proof.
  intros w args config debug.
  apply (main_debug_mode SampleBoot.B args config Sample.dir
           "localhost" (SInt 8013) debug "linux_kernel" config w).
  by vm_compute.
Defined.

(** X11.  [main] hands over to the server only with a printer descriptor
    whose backend was guessed and a default label size of [label_sizes];
    the printer, the model, the default size and the port are those of the
    command line when given and not empty, those of the configuration
    otherwise; and the world it leaves holds the scan of the image
    directory and no call. *)
Theorem main_serves_checked_settings (B : Boot) (args : Args)
    (config : Settings) (d : gmap string Node) (host : string)
    (port : Setting) (debug : bool) (backend : string) (config' : Settings)
    (w : World) :
  main B args config d = Serving host port debug backend config' w →
  guess_backend B (PRINTER_PRINTER (PRINTER config')) = Some backend
  ∧ LABEL_DEFAULT_SIZE config' ∈ label_sizes B
  ∧ CONFIG w = PRINTER config'
  ∧ PRINTER_PRINTER (CONFIG w)
    = default (PRINTER_PRINTER (PRINTER config)) (given (arg_printer args))
  ∧ PRINTER_MODEL (CONFIG w)
    = default (PRINTER_MODEL (PRINTER config)) (given (arg_model args))
  ∧ LABEL_DEFAULT_SIZE config'
    = default (LABEL_DEFAULT_SIZE config) (given (arg_default_label_size args))
  ∧ port = default (SERVER_PORT config) (SStr <$> given (arg_port args))
  ∧ FILE_NAMES w = scan d ∧ img_dir w = d ∧ trace w = [].
Proof.
  intros Hmain.
  destruct (main_Serving _ _ _ _ _ _ _ _ _ _ Hmain)
    as (Hg & _ & Hsize & _ & -> & Hp & Hm & Hs & Hport).
  cbn [CONFIG FILE_NAMES img_dir trace].
  repeat split; try done.
  rewrite Hport. by destruct (given (arg_port args)).
Qed.

Lemma main_serves_checked_settings_witness :
  let B := SampleBoot.B in
  let args := SampleBoot.no_args in
  let config := SampleBoot.config in
  let d := Sample.dir in
  let w := {| CONFIG := PRINTER config; DEBUG := false;
              FILE_NAMES := scan d; img_dir := d;
              headers := ∅; trace := [] |} in
  guess_backend B (PRINTER_PRINTER (PRINTER config)) = Some "linux_kernel"
  ∧ LABEL_DEFAULT_SIZE config ∈ label_sizes B
  ∧ CONFIG w = PRINTER config
  ∧ PRINTER_PRINTER (CONFIG w)
    = default (PRINTER_PRINTER (PRINTER config)) (given (arg_printer args))
  ∧ PRINTER_MODEL (CONFIG w)
    = default (PRINTER_MODEL (PRINTER config)) (given (arg_model args))
  ∧ LABEL_DEFAULT_SIZE config
    = default (LABEL_DEFAULT_SIZE config) (given (arg_default_label_size args))
  ∧ SInt 8013 = default (SERVER_PORT config) (SStr <$> given (arg_port args))
  ∧ FILE_NAMES w = scan d ∧ img_dir w = d ∧ trace w = [].
Proof.
  intros B args config d w.
  apply (main_serves_checked_settings B args config d "localhost" (SInt 8013)
           false "linux_kernel" config w).
  by vm_compute.
Defined.

(** X12.  When logging is configured without error: a printer descriptor
    whose backend cannot be guessed stops [main] with the usage error of
    the backend, whatever the default label size; and with a backend
    found, a default label size outside [label_sizes] stops it with the
    usage error that lists the sizes. *)
Theorem main_usage_errors (B : Boot) (args : Args) (config : Settings)
    (d : gmap string Node) :
  (∀ level, basicConfig B level = Return ()) →
  let printer :=
    default (PRINTER_PRINTER (PRINTER config)) (given (arg_printer args)) in
  let size :=
    default (LABEL_DEFAULT_SIZE config) (given (arg_default_label_size args)) in
  (guess_backend B printer = None →
   main B args config d
   = UsageError
       "Couln't guess the backend to use from the printer string descriptor")
  ∧ (∀ backend,
       guess_backend B printer = Some backend →
       backend_factory B backend = Return () →
       size ∉ label_sizes B →
       main B args config d
       = UsageError
           ("Invalid --default-label-size. Please choose on of the following:"
              +:+ String newline ":"
              +:+ String.concat " " (label_sizes B))).
Proof.
  intros Hlog printer size. subst printer size. unfold main.
  rewrite Hlog.
  destruct (given (arg_printer args)), (given (arg_model args)),
    (given (arg_default_label_size args)),
    (given (arg_default_orientation args)); cbn;
    (split;
     [ by intros ->
     | intros backend -> -> Hout; by rewrite decide_True ]).
Qed.

Lemma main_usage_errors_witness :
  let B := SampleBoot.B in
  let args := {| arg_port := None; arg_loglevel := SFalse;
                 arg_default_label_size := Some "17x54";
                 arg_default_orientation := None;
                 arg_model := None; arg_printer := Some "lp0" |} in
  let config := SampleBoot.config in
  let d := Sample.dir in
  let printer :=
    default (PRINTER_PRINTER (PRINTER config)) (given (arg_printer args)) in
  let size :=
    default (LABEL_DEFAULT_SIZE config) (given (arg_default_label_size args)) in
  (guess_backend B printer = None →
   main B args config d
   = UsageError
       "Couln't guess the backend to use from the printer string descriptor")
  ∧ (∀ backend,
       guess_backend B printer = Some backend →
       backend_factory B backend = Return () →
       size ∉ label_sizes B →
       main B args config d
       = UsageError
           ("Invalid --default-label-size. Please choose on of the following:"
              +:+ String newline ":"
              +:+ String.concat " " (label_sizes B))).
Proof.
  intros B args config d.
  apply (main_usage_errors B args config d). reflexivity.
Defined.

(* ===================================================================== *)
(** ** Further properties: label sizes and the label context             *)
(* ===================================================================== *)

(** X13.  When the list [LABEL_SIZES] of the designer page is built, it
    has one row per name of [label_sizes], in their order, and each size
    it offers is accepted by [get_label_context]: a request for it is
    parsed, with the kind of the catalog.  When it is not built, the
    exception is the [KeyError] of a name of [label_sizes] that the
    catalog lacks. *)
Theorem offered_label_sizes_are_known (X : Extern) (names : list string) :
  match LABEL_SIZES X names with
  | Return rows =>
      rows.*1.*1 = names
      ∧ ∀ name, name ∈ rows.*1.*1 →
          ∀ request, params request !! "label_size" = Some name →
            ∃ context spec,
              get_label_context X request = Return context
              ∧ label_size context = name
              ∧ label_type_specs X !! name = Some spec
              ∧ kind context = spec_kind spec
  | Raise e =>
      ∃ name, e = KeyError name ∧ name ∈ names
              ∧ label_type_specs X !! name = None
  end.
Proof.
  induction names as [|name names IH]; cbn [LABEL_SIZES].
  - split; [done|]. by intros name Hin%elem_of_nil.
  - destruct (label_type_specs X !! name) as [spec|] eqn:Hs.
    + destruct (LABEL_SIZES X names) as [rows|e].
      * destruct IH as [Hnames Hknown]. cbn. split; [by rewrite Hnames|].
        intros name' [->|Hin]%elem_of_cons request Hsize.
        -- exists {| file_name := requested_file request; label_size := name;
                     kind := spec_kind spec;
                     orientation := default "standard"
                                      (params request !! "orientation") |}, spec.
           unfold get_label_context. rewrite Hsize. cbn [default from_option id].
           by rewrite Hs.
        -- by apply Hknown.
      * destruct IH as (name' & -> & Hin & Hnone).
        exists name'. split; [done|]. split; [by apply list_elem_of_further|done].
    + exists name. split; [done|]. split; [apply list_elem_of_here|done].
Qed.

(* ===================================================================== *)
(** ** Further properties: the extension check                           *)
(* ===================================================================== *)

Lemma substring_all (s : string) : String.substring 0 (String.length s) s = s.
Proof. induction s as [|c s IH]; cbn; [done|]. by rewrite IH. Qed.

Lemma substring_split (n : nat) (s : string) :
  String.substring 0 n s +:+ String.substring n (String.length s - n) s = s.
Proof.
  revert n. induction s as [|c s IH]; intros [|n]; simpl; try done.
  - by rewrite substring_all.
  - change (String c (String.substring 0 n s
                      +:+ String.substring n (String.length s - n) s)
            = String c s).
    f_equal. apply IH.
Qed.

Lemma has_stem_true (fuel : nat) (p : string) (i j : nat) :
  has_stem fuel p i j = true → (0 < fuel)%nat ∧ (i < j)%nat.
Proof.
  destruct fuel as [|fuel]; cbn [has_stem]; [discriminate|].
  destruct (i <? j)%nat eqn:Hlt; [|discriminate].
  apply Nat.ltb_lt in Hlt. intros _. lia.
Qed.

Lemma splitext_split (p : string) : (splitext p).1 +:+ (splitext p).2 = p.
Proof.
  unfold splitext. destruct (_ && _); cbn [fst snd].
  - apply substring_split.
  - induction p as [|c p IH]; [done|].
    change (String c (p +:+ "") = String c p). by rewrite IH.
Qed.

(** X14.  A name that passes the extension check of [do_upload] and of
    [update_files] is a non-empty stem followed by one of the four
    extensions, in the letters of the list: the extension that
    [os.path.splitext] finds is the end of the name, and a name that is
    an extension alone does not pass. *)
Theorem allowed_extension_ends_name (p : string) :
  (splitext p).2 ∈ IMAGE_EXTENSIONS →
  ∃ stem ext, stem ≠ "" ∧ ext ∈ IMAGE_EXTENSIONS ∧ p = stem +:+ ext
              ∧ splitext p = (stem, ext).
Proof.
  intros Hext. exists (splitext p).1, (splitext p).2.
  split; [|split; [done|split; [by rewrite splitext_split|by destruct (splitext p)]]].
  revert Hext. unfold splitext.
  destruct (_ && has_stem _ _ _ _) eqn:Hcond; cbn [fst snd].
  - intros _. apply andb_true_iff in Hcond as [_ Hstem].
    apply has_stem_true in Hstem as [Hlen Hlt].
    destruct p as [|c p]; [cbn in Hlen; lia|].
    destruct (Z.to_nat (rfind "." (String c p))) as [|n]; [lia|]. done.
  - intros Hin. exfalso.
    repeat (apply elem_of_cons in Hin as [Hin|Hin]; [discriminate Hin|]).
    by apply elem_of_nil in Hin.
Qed.

Lemma allowed_extension_ends_name_witness :
  ∃ stem ext, stem ≠ "" ∧ ext ∈ IMAGE_EXTENSIONS ∧ "my.label.jpeg" = stem +:+ ext
              ∧ splitext "my.label.jpeg" = (stem, ext).
Proof.
  apply (allowed_extension_ends_name "my.label.jpeg").
  vm_compute. do 2 apply list_elem_of_further. apply list_elem_of_here.
Defined.

(* ===================================================================== *)
(** ** Further properties: what every served request keeps               *)
(* ===================================================================== *)




(** X16.  [image_exists] answers true exactly for the regular files of the
    image directory whose extension is on the allow-list: a file with
    another extension, a directory and an absent name are answered false.
    The check refreshes the list of names and changes nothing else. *)
Theorem image_exists_iff (name : string) (w : World) :
  ∃ found,
    image_exists name w = (Return found, with_FILE_NAMES (scan (img_dir w)) w)
    ∧ (found = true ↔
       starts_with_slash name = false
       ∧ (∃ content, img_dir w !! name = Some (RegularFile content))
       ∧ (splitext name).2 ∈ IMAGE_EXTENSIONS).
Proof.
  exists (bool_decide (name ∈ scan (img_dir w))). split; [done|].
  rewrite bool_decide_eq_true, elem_of_scan. tauto.
Qed.
